(** * simple-multi-chat-ui: the chat client's API layer and event handlers

    A shallow embedding of [app.py]: the HTTP wrappers of the API client
    ([get_chats], [create_chat], [delete_chat], [rename_chat],
    [get_chat_messages], [send_message_and_get_reply]) and the Gradio event
    handlers built on them ([login], [logout],
    [refresh_and_update_components], [on_chat_select],
    [handle_create_chat], [handle_delete_chat], [handle_rename_chat],
    [handle_send_and_refresh]).

    Modelling choices.
    - Python values decoded from JSON are the inductive type [value]; a
      [dict] is an association list read by first match.  JSON numbers are
      taken to be integers; floating-point payloads are outside the model.
    - A [str] is a Rocq [string], every character standing for the code
      point 0..255 of the same number.
    - The program talks to the world through HTTP requests, toasts, log
      lines and one [time.sleep]; all of these are recorded, in order, in
      a [trace] that is threaded through every function.  The remote API is
      a parameter [server], which decides the outcome of each request from
      the request and from everything that happened before it.
    - Exceptions are values of type [exn]; a computation either returns or
      raises, and [try_except] follows Python's [try]/[except] clauses.
    - F-strings are kept as lists of pieces, so that [str(...)] of an
      embedded value never has to be computed.
    - The base URL is a fixed prefix of every request and is left out:
      a request names the endpoint path only. *)

From Stdlib Require Import List String Ascii ZArith Bool Lia.
Import ListNotations.
Local Open Scope string_scope.
Local Open Scope list_scope.

Set Warnings "-register-all".

(** ** Python values *)

Inductive value : Type :=
| VNone
| VBool (b : bool)
| VInt (n : Z)
| VStr (s : string)
| VList (l : list value)
| VDict (d : list (string * value)).

(** [bool(v)]: the truth value Python gives to [v] in [if v] and [not v]. *)
Definition truthy (v : value) : bool :=
  match v with
  | VNone => false
  | VBool b => b
  | VInt n => negb (Z.eqb n 0)
  | VStr s => negb (String.eqb s "")
  | VList l => match l with [] => false | _ :: _ => true end
  | VDict d => match d with [] => false | _ :: _ => true end
  end.

(** [d.get(k)] on the association list of a dict: the first binding wins. *)
Fixpoint dict_lookup (k : string) (d : list (string * value)) : option value :=
  match d with
  | [] => None
  | (k', v) :: r => if String.eqb k k' then Some v else dict_lookup k r
  end.

Definition dict_has (k : string) (d : list (string * value)) : bool :=
  match dict_lookup k d with Some _ => true | None => false end.

(** The keys of a dict in iteration order, each once. *)
Fixpoint dict_keys_from (seen : list string) (d : list (string * value))
  : list string :=
  match d with
  | [] => []
  | (k, _) :: r =>
      if existsb (String.eqb k) seen then dict_keys_from seen r
      else k :: dict_keys_from (k :: seen) r
  end.

Definition dict_keys (d : list (string * value)) : list string :=
  dict_keys_from [] d.

(** [a == b] on decoded JSON values.  [True == 1] and [False == 0] hold in
    Python; lists are compared element by element and dicts as mappings. *)
Fixpoint py_eq (a b : value) {struct a} : bool :=
  match a, b with
  | VNone, VNone => true
  | VBool x, VBool y => Bool.eqb x y
  | VBool x, VInt n => Z.eqb (Z.b2z x) n
  | VInt n, VBool x => Z.eqb n (Z.b2z x)
  | VInt m, VInt n => Z.eqb m n
  | VStr s, VStr t => String.eqb s t
  | VList l, VList l' =>
      (fix eq_items (l l' : list value) {struct l} : bool :=
         match l, l' with
         | [], [] => true
         | x :: xs, y :: ys => py_eq x y && eq_items xs ys
         | _, _ => false
         end) l l'
  | VDict d, VDict d' =>
      (fix sub (seen : list string) (d : list (string * value)) {struct d}
         : bool :=
         match d with
         | [] => true
         | (k, v) :: r =>
             (if existsb (String.eqb k) seen then true
              else match dict_lookup k d' with
                   | Some v' => py_eq v v'
                   | None => false
                   end)
             && sub (k :: seen) r
         end) [] d
      && forallb (fun kv => dict_has (fst kv) d) d'
  | _, _ => false
  end.

(** ** Strings *)

(** [needle in hay] for two strings. *)
Fixpoint py_str_contains (needle hay : string) : bool :=
  String.prefix needle hay
  || match hay with
     | EmptyString => false
     | String _ r => py_str_contains needle r
     end.

(** Iterating over a string yields its characters as one-character strings. *)
Fixpoint py_str_chars (s : string) : list value :=
  match s with
  | EmptyString => []
  | String c r => VStr (String c EmptyString) :: py_str_chars r
  end.

(** [c.isspace()] for the code points below 256. *)
Definition is_space (c : ascii) : bool :=
  let n := nat_of_ascii c in
  (((9 <=? n) && (n <=? 13)) || ((28 <=? n) && (n <=? 32))
   || (n =? 133) || (n =? 160))%nat.

Fixpoint lstrip (s : string) : string :=
  match s with
  | EmptyString => EmptyString
  | String c r => if is_space c then lstrip r else s
  end.

Fixpoint string_rev (s : string) : string :=
  match s with
  | EmptyString => EmptyString
  | String c r => string_rev r ++ String c EmptyString
  end.

Definition rstrip (s : string) : string := string_rev (lstrip (string_rev s)).

(** [s.strip()] *)
Definition strip (s : string) : string := rstrip (lstrip s).

Fixpoint all_space (s : string) : bool :=
  match s with
  | EmptyString => true
  | String c r => is_space c && all_space r
  end.

(** [not s.strip()] *)
Definition blank (s : string) : bool := String.eqb (strip s) "".

(** ** HTTP responses, exceptions, messages *)

(** The body of a response: either it decodes as JSON or it is plain text. *)
Inductive body : Type :=
| BodyJson (v : value)
| BodyText (s : string).

Record response : Type := mkResponse {
  status_code : Z;
  resp_body : body
}.

(** The exception classes the program can meet.  [RequestError] stands for
    every [RequestException] raised by the transport itself (connection
    errors, timeouts, ...); [JSONDecodeError] is the one of [requests], a
    [RequestException] and a [ValueError] at once. *)
Inductive exn : Type :=
| RequestError (resp : option response)
| HTTPError (resp : response)
| JSONDecodeError
| ValueError (msg : string)
| KeyError (key : string)
| TypeError
| AttributeError.

Definition is_HTTPError (e : exn) : bool :=
  match e with HTTPError _ => true | _ => false end.

Definition is_RequestException (e : exn) : bool :=
  match e with
  | RequestError _ | HTTPError _ | JSONDecodeError => true
  | _ => false
  end.

Definition is_ValueError (e : exn) : bool :=
  match e with ValueError _ | JSONDecodeError => true | _ => false end.

Definition is_KeyError (e : exn) : bool :=
  match e with KeyError _ => true | _ => false end.

Definition is_TypeError (e : exn) : bool :=
  match e with TypeError => true | _ => false end.

(** [e.response], when the exception has one that is not [None]. *)
Definition exn_response (e : exn) : option response :=
  match e with
  | RequestError r => r
  | HTTPError r => Some r
  | _ => None
  end.

(** The pieces of an f-string: literal text, [str(v)], [str(e)], and
    [json.dumps(v, indent=2)]. *)
Inductive piece : Type :=
| Lit (s : string)
| Str (v : value)
| StrExn (e : exn)
| JsonDumps (v : value).

Definition fstring : Type := list piece.

(** ** Requests, events and the server *)

Inductive method : Type := POST | DELETE.

Inductive headers : Type :=
| ContentTypeOnly
| WithBearer (auth_token : value).

Record request : Type := mkRequest {
  req_method : method;
  req_path : string;
  req_headers : headers;
  req_params : list (string * value);
  req_json : option value
}.

Inductive event : Type :=
| Http (r : request)
| Sleep (seconds : Z)
| LogWarning (m : fstring)
| LogInfo (m : fstring)
| GrWarning (m : fstring)
| GrInfo (m : fstring)
| GrSuccess (m : fstring).

Definition trace : Type := list event.

(** What the network does with a request: the transport raises, or a
    response comes back. *)
Inductive reply : Type :=
| Fails (resp : option response)
| Answers (r : response).

Definition server : Type := trace -> request -> reply.

(** The HTTP requests of a trace, in order. *)
Fixpoint http_requests (tr : trace) : list request :=
  match tr with
  | [] => []
  | Http r :: rest => r :: http_requests rest
  | _ :: rest => http_requests rest
  end.

(** ** Computations *)

Inductive outcome (A : Type) : Type :=
| Ret (a : A)
| Raise (e : exn).
Arguments Ret {A} a.
Arguments Raise {A} e.

Definition M (A : Type) : Type := server -> trace -> outcome A * trace.

Definition ret {A : Type} (a : A) : M A := fun _ tr => (Ret a, tr).

Definition raise {A : Type} (e : exn) : M A := fun _ tr => (Raise e, tr).

Definition bind {A B : Type} (m : M A) (k : A -> M B) : M B :=
  fun srv tr =>
    match m srv tr with
    | (Ret a, tr') => k a srv tr'
    | (Raise e, tr') => (Raise e, tr')
    end.

Definition emit (e : event) : M unit := fun _ tr => (Ret tt, tr ++ [e]).

(** [try: m  except ...]: [clauses e] is the body of the first [except]
    clause that matches [e], if there is one. *)
Definition try_except {A : Type} (m : M A) (clauses : exn -> option (M A))
  : M A :=
  fun srv tr =>
    match m srv tr with
    | (Ret a, tr') => (Ret a, tr')
    | (Raise e, tr') =>
        match clauses e with
        | Some h => h srv tr'
        | None => (Raise e, tr')
        end
    end.

Notation "x <- c1 ;; c2" := (bind c1 (fun x => c2))
  (at level 61, c1 at next level, right associativity).
Notation "' pat <- c1 ;; c2" :=
  (bind c1 (fun x => match x with pat => c2 end))
  (at level 61, pat pattern, c1 at next level, right associativity).
Notation "c1 ;; c2" := (bind c1 (fun _ => c2))
  (at level 61, right associativity).

(** A list comprehension [[f(x) for x in l]]. *)
Fixpoint for_each {A B : Type} (f : A -> M B) (l : list A) : M (list B) :=
  match l with
  | [] => ret []
  | x :: r => y <- f x ;; ys <- for_each f r ;; ret (y :: ys)
  end.

(** ** Python operations on decoded values *)

(** [k in v] for a string [k]. *)
Definition py_contains (k : string) (v : value) : M bool :=
  match v with
  | VDict d => ret (dict_has k d)
  | VList l => ret (existsb (py_eq (VStr k)) l)
  | VStr s => ret (py_str_contains k s)
  | _ => raise TypeError
  end.

(** [v[k]] for a string [k]. *)
Definition py_getitem (v : value) (k : string) : M value :=
  match v with
  | VDict d =>
      match dict_lookup k d with
      | Some x => ret x
      | None => raise (KeyError k)
      end
  | _ => raise TypeError
  end.

(** [v.get(k, default)]; only a dict has the method. *)
Definition py_get (v : value) (k : string) (default : value) : M value :=
  match v with
  | VDict d =>
      match dict_lookup k d with
      | Some x => ret x
      | None => ret default
      end
  | _ => raise AttributeError
  end.

(** The items [for x in v] runs over. *)
Definition py_iter (v : value) : M (list value) :=
  match v with
  | VList l => ret l
  | VDict d => ret (map VStr (dict_keys d))
  | VStr s => ret (py_str_chars s)
  | _ => raise TypeError
  end.

(** ** The [requests] library *)

Definition send_request (req : request) : M response :=
  fun srv tr =>
    match srv tr req with
    | Fails r => (Raise (RequestError r), tr ++ [Http req])
    | Answers r => (Ret r, tr ++ [Http req])
    end.

Definition requests_post (path : string) (h : headers)
  (params : list (string * value)) (json : option value) : M response :=
  send_request (mkRequest POST path h params json).

Definition requests_delete (path : string) (h : headers)
  (params : list (string * value)) : M response :=
  send_request (mkRequest DELETE path h params None).

(** [raise_for_status] raises [HTTPError] on a 4xx or 5xx status. *)
Definition is_error_status (r : response) : bool :=
  ((400 <=? status_code r) && (status_code r <? 600))%Z.

Definition raise_for_status (r : response) : M unit :=
  if is_error_status r then raise (HTTPError r) else ret tt.

Definition response_json (r : response) : M value :=
  match resp_body r with
  | BodyJson v => ret v
  | BodyText _ => raise JSONDecodeError
  end.

Definition time_sleep (seconds : Z) : M unit := emit (Sleep seconds).

(** ** Configuration *)

Module API_ENDPOINTS.
Definition token : string := "/auth/token".
Definition get_chats : string :=
  "/memory/collections/chat/points/by_metadata_chat".
Definition create_chat : string := "/createChat".
Definition delete_chat : string := "/delete_chat".
Definition rename_chat : string :=
  "/memory/collections/points/changeNameChat".
Definition get_messages : string := "/giveAll".
Definition send_message : string := "/message".
End API_ENDPOINTS.

(** ** Logging and error reporting *)

Definition log_and_warn (message : fstring) : M unit :=
  emit (LogWarning message) ;; emit (GrWarning message).

Definition log_and_info (message : fstring) : M unit :=
  emit (LogInfo message) ;; emit (GrInfo message).

Definition log_and_success (message : fstring) : M unit :=
  emit (LogInfo message) ;; emit (GrSuccess message).

Definition api_error_message (e : exn) (context : string) : fstring :=
  let error_message := [Lit "Error in "; Lit context; Lit ": "; StrExn e] in
  match exn_response e with
  | Some r =>
      match resp_body r with
      | BodyJson error_body =>
          error_message ++ [Lit " | Details: "; JsonDumps error_body]
      | BodyText text => error_message ++ [Lit " | Details: "; Lit text]
      end
  | None => error_message
  end.

Definition handle_api_error (e : exn) (context : string) : M unit :=
  log_and_warn (api_error_message e context).

(** ** API client *)

(** A chat as the client keeps it: the pair [[name, id]]. *)
Definition chat : Type := (value * value)%type.

(** One entry of the displayed history. *)
Record turn : Type := mkTurn {
  role : string;
  content : value
}.

Definition get_headers (auth_token : value) : M headers :=
  if negb (truthy auth_token)
  then raise (ValueError "Authentication token is missing.")
  else ret (WithBearer auth_token).

Definition get_chats (auth_token : value) : M (list chat) :=
  try_except
    (headers <- get_headers auth_token ;;
     response <- requests_post API_ENDPOINTS.get_chats headers [] None ;;
     raise_for_status response ;;
     data <- response_json response ;;
     has_points <- py_contains "points" data ;;
     nonempty <- (if has_points
                  then points <- py_getitem data "points" ;;
                       ret (truthy points)
                  else ret false) ;;
     if nonempty
     then points <- py_getitem data "points" ;;
          ps <- py_iter points ;;
          for_each
            (fun p =>
               metadata <- py_getitem p "metadata" ;;
               name <- py_get metadata "name" (VStr "Unnamed Chat") ;;
               id <- py_getitem p "id" ;;
               ret (name, id))
            ps
     else ret [])
    (fun e =>
       if is_RequestException e || is_ValueError e
       then Some (handle_api_error e "fetching chats" ;; ret [])
       else None).

Definition create_chat (auth_token : value) (chat_name : string) : M unit :=
  try_except
    (headers <- get_headers auth_token ;;
     let payload :=
       VDict [("metadata",
               VDict [("name", VStr chat_name);
                      ("content", VStr chat_name)])] in
     response <-
       requests_post API_ENDPOINTS.create_chat headers [] (Some payload) ;;
     raise_for_status response ;;
     log_and_success
       [Lit "Chat '"; Lit chat_name; Lit "' created successfully!"])
    (fun e =>
       if is_RequestException e || is_ValueError e
       then Some (handle_api_error e "creating chat")
       else None).

Definition delete_chat (auth_token chat_id : value) : M unit :=
  if negb (truthy chat_id)
  then log_and_warn [Lit "Please select a chat to delete."]
  else
    try_except
      (headers <- get_headers auth_token ;;
       let params := [("chat_id", chat_id)] in
       response <- requests_delete API_ENDPOINTS.delete_chat headers params ;;
       raise_for_status response)
      (fun e =>
         if is_RequestException e || is_ValueError e
         then Some (handle_api_error e "deleting chat")
         else None).

Definition rename_chat (auth_token chat_id : value) (new_name : string)
  : M unit :=
  if negb (truthy chat_id)
  then log_and_warn [Lit "Please select a chat to rename."]
  else if blank new_name
  then log_and_warn [Lit "New name cannot be empty."]
  else
    try_except
      (headers <- get_headers auth_token ;;
       let params := [("chat_id", chat_id); ("name", VStr new_name)] in
       response <-
         requests_post API_ENDPOINTS.rename_chat headers params None ;;
       raise_for_status response ;;
       log_and_success
         [Lit "Chat "; Str chat_id; Lit " renamed to '"; Lit new_name;
          Lit "'."])
      (fun e =>
         if is_RequestException e || is_ValueError e
         then Some (handle_api_error e "renaming chat")
         else None).

(** The body of the loop over the message entries of [get_chat_messages]:
    [history] is the list built so far. *)
Fixpoint collect_history (history : list turn) (messages : list value)
  : M (list turn) :=
  match messages with
  | [] => ret history
  | msg :: rest =>
      meta <- py_get msg "metadata" (VDict []) ;;
      text <- py_get meta "text" VNone ;;
      history <- (if truthy text
                  then c <- py_getitem meta "text" ;;
                       ret (history ++ [mkTurn "user" c])
                  else ret history) ;;
      bot <- py_get meta "bot" VNone ;;
      history <- (if truthy bot
                  then c <- py_getitem meta "bot" ;;
                       ret (history ++ [mkTurn "assistant" c])
                  else ret history) ;;
      collect_history history rest
  end.

Definition get_chat_messages (auth_token chat_id : value)
  : M (list turn * fstring) :=
  if negb (truthy chat_id)
  then ret ([], [Lit "Select a chat to see messages"])
  else
    try_except
      (headers <- get_headers auth_token ;;
       let params := [("chat_id", chat_id)] in
       response <-
         requests_post API_ENDPOINTS.get_messages headers params None ;;
       raise_for_status response ;;
       data <- response_json response ;;
       chat_name <- py_get data "Name" (VStr "Current Chat") ;;
       container <- py_get data "Messages" (VDict []) ;;
       messages <- py_get container "points" (VList []) ;;
       items <- py_iter messages ;;
       history <- collect_history [] items ;;
       ret (history, [Lit "History for: "; Str chat_name]))
      (fun e =>
         if is_RequestException e || is_ValueError e
         then Some (handle_api_error e "fetching messages" ;;
                    ret ([], [Lit "Error loading messages"]))
         else if is_KeyError e || is_TypeError e
         then Some (log_and_warn [Lit "Error parsing response: "; StrExn e] ;;
                    ret ([], [Lit "Could not parse message response"]))
         else None).

(** The result is [None] when nothing was sent or the send failed. *)
Definition send_message_and_get_reply (auth_token chat_id : value)
  (text : string) : M (option (list turn)) :=
  if negb (truthy chat_id)
  then log_and_warn [Lit "Cannot send message: no chat selected."] ;;
       ret None
  else if blank text
  then log_and_warn [Lit "Cannot send an empty message."] ;; ret None
  else
    try_except
      (headers <- get_headers auth_token ;;
       let payload := VDict [("text", VStr text); ("chat_id", chat_id)] in
       send_response <-
         requests_post API_ENDPOINTS.send_message headers [] (Some payload) ;;
       raise_for_status send_response ;;
       time_sleep 1 ;;
       '(updated_history, _) <- get_chat_messages auth_token chat_id ;;
       ret (Some updated_history))
      (fun e =>
         if is_RequestException e || is_ValueError e
         then Some (handle_api_error e "sending message" ;; ret None)
         else None).

(** ** Event handlers *)

(** [gr.update(...)]: the keyword arguments that were given. *)
Record gr_update : Type := mkUpdate {
  upd_visible : option bool;
  upd_choices : option (list chat);
  upd_value : option value
}.

(** [gr.update()] leaves the component as it is. *)
Definition no_change : gr_update := mkUpdate None None None.
Definition update_visible (b : bool) : gr_update :=
  mkUpdate (Some b) None None.
Definition update_choices (l : list chat) : gr_update :=
  mkUpdate None (Some l) None.
Definition update_choices_value (l : list chat) (v : value) : gr_update :=
  mkUpdate None (Some l) (Some v).

(** What a handler hands back for one output component: a new value, or a
    [gr.update(...)]. *)
Inductive output (A : Type) : Type :=
| Value (a : A)
| Update (u : gr_update).
Arguments Value {A} a.
Arguments Update {A} u.

Definition refresh_and_update_components (auth_token : value)
  : M (gr_update * list chat) :=
  if negb (truthy auth_token)
  then ret (update_choices [], [])
  else chats <- get_chats auth_token ;;
       ret (update_choices_value chats VNone, chats).

Definition login_failed
  : gr_update * gr_update * value * list chat * gr_update :=
  (update_visible true, update_visible false, VNone, [], update_choices []).

Definition login (username password : string)
  : M (gr_update * gr_update * value * list chat * gr_update) :=
  if String.eqb username "" || String.eqb password ""
  then emit (GrWarning [Lit "Username and Password are required."]) ;;
       ret login_failed
  else
    try_except
      (let payload :=
         VDict [("username", VStr username); ("password", VStr password)] in
       response <-
         requests_post API_ENDPOINTS.token ContentTypeOnly [] (Some payload) ;;
       raise_for_status response ;;
       token_data <- response_json response ;;
       auth_token <- py_get token_data "access_token" VNone ;;
       if negb (truthy auth_token)
       then emit (GrWarning [Lit "Login failed: No token received."]) ;;
            ret login_failed
       else
         log_and_success [Lit "Login successful."] ;;
         '(chat_choices, chat_list) <-
           refresh_and_update_components auth_token ;;
         ret (update_visible false, update_visible true, auth_token,
              chat_list, chat_choices))
      (fun e =>
         match e with
         | HTTPError r =>
             Some ((if Z.eqb (status_code r) 401
                    then emit (GrWarning [Lit "Invalid username or password."])
                    else handle_api_error e "authentication") ;;
                   ret login_failed)
         | _ =>
             if is_RequestException e
             then Some (handle_api_error e "authentication" ;;
                        ret login_failed)
             else None
         end).

Definition logout
  : M (gr_update * gr_update * value * list chat * value * list turn
       * gr_update * string * string) :=
  log_and_info [Lit "User logged out."] ;;
  ret (update_visible true, update_visible false, VNone, [], VNone, [],
       update_choices_value [] VNone, "", "").

(** [next((name for name, chat_id in chat_list if chat_id == selected_id),
    None)] *)
Fixpoint get_name_from_id (selected_id : value) (chat_list : list chat)
  : value :=
  match chat_list with
  | [] => VNone
  | (name, chat_id) :: rest =>
      if py_eq chat_id selected_id then name
      else get_name_from_id selected_id rest
  end.

Definition on_chat_select (selected_id auth_token : value)
  : M (list turn * value) :=
  if truthy selected_id
  then '(history, _) <- get_chat_messages auth_token selected_id ;;
       ret (history, selected_id)
  else ret ([], VNone).

Definition handle_create_chat (name : string) (auth_token : value)
  : M (gr_update * list chat * string) :=
  create_chat auth_token name ;;
  '(updated_choices, updated_list) <-
    refresh_and_update_components auth_token ;;
  ret (updated_choices, updated_list, "").

(** [a or b] *)
Definition py_or (a b : value) : value := if truthy a then a else b.

Definition handle_delete_chat (selected_id : value)
  (chat_list_data : list chat) (auth_token : value)
  : M (gr_update * output (list chat) * output value * output (list turn)) :=
  if truthy selected_id
  then
    let chat_name :=
      py_or (get_name_from_id selected_id chat_list_data) selected_id in
    delete_chat auth_token selected_id ;;
    log_and_success [Lit "Chat '"; Str chat_name; Lit "' deleted."] ;;
    '(updated_choices, updated_list) <-
      refresh_and_update_components auth_token ;;
    ret (updated_choices, Value updated_list, Value VNone, Value [])
  else
    log_and_warn [Lit "No chat selected to delete."] ;;
    ret (no_change, Update no_change, Update no_change, Update no_change).

Definition handle_rename_chat (selected_id : value) (new_name : string)
  (auth_token : value) : M (gr_update * output (list chat) * string) :=
  if negb (truthy selected_id)
  then emit (GrWarning [Lit "Please select a chat to rename."]) ;;
       ret (no_change, Update no_change, new_name)
  else
    rename_chat auth_token selected_id new_name ;;
    '(refreshed_choices, refreshed_list) <-
      refresh_and_update_components auth_token ;;
    ret (refreshed_choices, Value refreshed_list, "").

Definition handle_send_and_refresh (selected_chat_id : value) (text : string)
  (auth_token : value) : M (list turn * string) :=
  if negb (truthy selected_chat_id)
  then log_and_warn [Lit "Please select a chat first."] ;; ret ([], "")
  else
    updated_history <-
      send_message_and_get_reply auth_token selected_chat_id text ;;
    match updated_history with
    | None =>
        '(current_history, _) <-
          get_chat_messages auth_token selected_chat_id ;;
        ret (current_history, text)
    | Some updated_history => ret (updated_history, "")
    end.

(** * Vocabulary of the properties *)

(** ** Requests the client sends *)

Definition chats_request (auth_token : value) : request :=
  mkRequest POST API_ENDPOINTS.get_chats (WithBearer auth_token) [] None.

Definition delete_request (auth_token chat_id : value) : request :=
  mkRequest DELETE API_ENDPOINTS.delete_chat (WithBearer auth_token)
    [("chat_id", chat_id)] None.

Definition rename_request (auth_token chat_id : value) (new_name : string)
  : request :=
  mkRequest POST API_ENDPOINTS.rename_chat (WithBearer auth_token)
    [("chat_id", chat_id); ("name", VStr new_name)] None.

Definition messages_request (auth_token chat_id : value) : request :=
  mkRequest POST API_ENDPOINTS.get_messages (WithBearer auth_token)
    [("chat_id", chat_id)] None.

Definition message_request (auth_token chat_id : value) (text : string)
  : request :=
  mkRequest POST API_ENDPOINTS.send_message (WithBearer auth_token) []
    (Some (VDict [("text", VStr text); ("chat_id", chat_id)])).

Definition create_request (auth_token : value) (chat_name : string)
  : request :=
  mkRequest POST API_ENDPOINTS.create_chat (WithBearer auth_token) []
    (Some (VDict [("metadata",
                   VDict [("name", VStr chat_name);
                          ("content", VStr chat_name)])])).

Definition token_request (username password : string) : request :=
  mkRequest POST API_ENDPOINTS.token ContentTypeOnly []
    (Some (VDict [("username", VStr username);
                  ("password", VStr password)])).

(** ** Outcomes of a call *)

(** The exception an HTTP call ends in, if it fails: the transport raised,
    or the status is an error for [raise_for_status]. *)
Definition call_failure (o : reply) : option exn :=
  match o with
  | Fails resp => Some (RequestError resp)
  | Answers r => if is_error_status r then Some (HTTPError r) else None
  end.

(** The two events of [log_and_warn]. *)
Definition warned (m : fstring) : list event := [LogWarning m; GrWarning m].

(** The delays of a trace, in order. *)
Fixpoint sleeps (tr : trace) : list Z :=
  match tr with
  | [] => []
  | Sleep n :: rest => n :: sleeps rest
  | _ :: rest => sleeps rest
  end.

(** Exceptions raised by reading a payload of the wrong shape. *)
Definition shape_error (e : exn) : bool :=
  match e with
  | KeyError _ | TypeError | AttributeError => true
  | _ => false
  end.

(** A computation that only inspects values: it adds nothing to the trace,
    and all it can raise is a [shape_error]. *)
Definition inspects {A : Type} (m : M A) : Prop :=
  forall srv tr,
    snd (m srv tr) = tr
    /\ forall e, fst (m srv tr) = Raise e -> shape_error e = true.

(** The part of [get_chats] that reads the decoded payload. *)
Definition read_chats (data : value) : M (list chat) :=
  has_points <- py_contains "points" data ;;
  nonempty <- (if has_points
               then points <- py_getitem data "points" ;;
                    ret (truthy points)
               else ret false) ;;
  if nonempty
  then points <- py_getitem data "points" ;;
       ps <- py_iter points ;;
       for_each
         (fun p =>
            metadata <- py_getitem p "metadata" ;;
            name <- py_get metadata "name" (VStr "Unnamed Chat") ;;
            id <- py_getitem p "id" ;;
            ret (name, id))
         ps
  else ret [].

(** The part of [get_chat_messages] that reads the decoded payload. *)
Definition read_messages (data : value) : M (list turn * fstring) :=
  chat_name <- py_get data "Name" (VStr "Current Chat") ;;
  container <- py_get data "Messages" (VDict []) ;;
  messages <- py_get container "points" (VList []) ;;
  items <- py_iter messages ;;
  history <- collect_history [] items ;;
  ret (history, [Lit "History for: "; Str chat_name]).

(** ** Payloads of the documented shape *)

(** The metadata of a message entry: the entry is an object whose
    [metadata], when there is one, is an object. *)
Definition metadata_of (msg : value) : option (list (string * value)) :=
  match msg with
  | VDict entry =>
      match dict_lookup "metadata" entry with
      | Some (VDict meta) => Some meta
      | Some _ => None
      | None => Some []
      end
  | _ => None
  end.

(** The turns an entry contributes: a user turn for a [text] field that
    holds a true value, then an assistant turn for such a [bot] field. *)
Definition turns_of_entry (meta : list (string * value)) : list turn :=
  (match dict_lookup "text" meta with
   | Some t => if truthy t then [mkTurn "user" t] else []
   | None => []
   end)
  ++ (match dict_lookup "bot" meta with
      | Some b => if truthy b then [mkTurn "assistant" b] else []
      | None => []
      end).

(** The turns of an entry when, as the specification words it, presence of
    the field alone decides. *)
Definition turns_if_present (meta : list (string * value)) : list turn :=
  (match dict_lookup "text" meta with
   | Some t => [mkTurn "user" t]
   | None => []
   end)
  ++ (match dict_lookup "bot" meta with
      | Some b => [mkTurn "assistant" b]
      | None => []
      end).

(** The chat a point of the list-chats payload stands for: the point is an
    object with an [id] and a [metadata] object; a missing [name] becomes
    the placeholder. *)
Definition chat_of_point (p : value) : option chat :=
  match p with
  | VDict point =>
      match dict_lookup "metadata" point, dict_lookup "id" point with
      | Some (VDict metadata), Some id =>
          Some (match dict_lookup "name" metadata with
                | Some name => name
                | None => VStr "Unnamed Chat"
                end, id)
      | _, _ => None
      end
  | _ => None
  end.

(** ** Sample servers *)

Definition ok_json (v : value) : reply :=
  Answers (mkResponse 200 (BodyJson v)).

Definition sample_chats : value :=
  VDict [("points",
          VList [VDict [("id", VStr "c1");
                        ("metadata", VDict [("name", VStr "Trip")])];
                 VDict [("id", VStr "c2"); ("metadata", VDict [])]])].

Definition sample_messages : value :=
  VDict [("Name", VStr "Trip");
         ("Messages",
          VDict [("points",
                  VList [VDict [("metadata",
                                 VDict [("text", VStr "hi");
                                        ("bot", VStr "hello")])]])])].

(** A server that answers every call, with the sample payloads. *)
Definition sample_server : server :=
  fun _ req =>
    if String.eqb (req_path req) API_ENDPOINTS.get_chats
    then ok_json sample_chats
    else if String.eqb (req_path req) API_ENDPOINTS.get_messages
    then ok_json sample_messages
    else ok_json (VDict []).

(** The same server, except that sending a message is refused. *)
Definition refusing_server : server :=
  fun tr req =>
    if String.eqb (req_path req) API_ENDPOINTS.send_message
    then Answers (mkResponse 500 (BodyText "busy"))
    else sample_server tr req.

(** A server whose list of chats has a point without [metadata], and whose
    message history is a JSON array. *)
Definition misshapen_server : server :=
  fun _ req =>
    if String.eqb (req_path req) API_ENDPOINTS.get_chats
    then ok_json (VDict [("points", VList [VDict [("id", VStr "c1")]])])
    else ok_json (VList []).

(** A server that cannot be reached. *)
Definition unreachable_server : server := fun _ _ => Fails None.

(** A server that refuses the credentials. *)
Definition unauthorized_server : server :=
  fun _ _ => Answers (mkResponse 401 (BodyText "Unauthorized")).

(** The sample server, handing out a token at the token endpoint. *)
Definition login_server : server :=
  fun tr req =>
    if String.eqb (req_path req) API_ENDPOINTS.token
    then ok_json (VDict [("access_token", VStr "token")])
    else sample_server tr req.

(** A server whose message payload has [null] for its points. *)
Definition null_points_server : server :=
  fun _ _ =>
    ok_json (VDict [("Name", VStr "Trip");
                    ("Messages", VDict [("points", VNone)])]).

(** A server that answers every call with the empty JSON object. *)
Definition empty_object_server : server := fun _ _ => ok_json (VDict []).

(** A message entry whose [text] is present and empty. *)
Definition empty_text_entry : list (string * value) :=
  [("text", VStr ""); ("bot", VStr "hello")].

Definition empty_text_server : server :=
  fun _ _ =>
    ok_json
      (VDict [("Name", VStr "Trip");
              ("Messages",
               VDict [("points",
                       VList [VDict [("metadata",
                                      VDict empty_text_entry)]])])]).

(** A list of chats in which one point has the empty string as its id. *)
Definition empty_id_server : server :=
  fun _ _ =>
    ok_json
      (VDict [("points",
               VList [VDict [("id", VStr "");
                             ("metadata", VDict [("name", VStr "Trip")])]])]).

(** * Properties *)

(** ** Whitespace-only strings *)

Section Strip.

Lemma all_space_app (s t : string) :
  all_space (s ++ t) = all_space s && all_space t.
Proof.
  induction s as [|c s IH]; simpl.
  - reflexivity.
  - rewrite IH. now rewrite andb_assoc.
Qed.

Lemma all_space_rev (s : string) : all_space (string_rev s) = all_space s.
Proof.
  induction s as [|c s IH]; simpl.
  - reflexivity.
  - rewrite all_space_app, IH. simpl.
    rewrite andb_true_r. apply andb_comm.
Qed.

Lemma string_rev_empty (s : string) : string_rev s = "" -> s = "".
Proof.
  destruct s as [|c s]; simpl.
  - reflexivity.
  - destruct (string_rev s); discriminate.
Qed.

(** Stripping on the left leaves nothing exactly when every character is
    white space. *)
Lemma lstrip_empty (s : string) : lstrip s = "" <-> all_space s = true.
Proof.
  induction s as [|c s IH]; simpl.
  - tauto.
  - destruct (is_space c); simpl.
    + exact IH.
    + split; discriminate.
Qed.

Lemma all_space_lstrip (s : string) : all_space (lstrip s) = all_space s.
Proof.
  induction s as [|c s IH]; simpl.
  - reflexivity.
  - destruct (is_space c) eqn:E; simpl.
    + exact IH.
    + now rewrite E.
Qed.

Lemma strip_empty (s : string) : strip s = "" <-> all_space s = true.
Proof.
  unfold strip, rstrip. split.
  - intros H. apply string_rev_empty in H.
    apply lstrip_empty in H.
    now rewrite all_space_rev, all_space_lstrip in H.
  - intros H.
    assert (E : lstrip (string_rev (lstrip s)) = "").
    { apply lstrip_empty. now rewrite all_space_rev, all_space_lstrip. }
    now rewrite E.
Qed.

(** [not s.strip()] holds exactly of the whitespace-only strings, the
    empty one included. *)
Lemma blank_all_space (s : string) : blank s = all_space s.
Proof.
  unfold blank. destruct (all_space s) eqn:E.
  - apply strip_empty in E. now rewrite E.
  - apply String.eqb_neq. intros H. apply strip_empty in H. congruence.
Qed.

End Strip.

(** ** Running computations *)

Section Running.

Context {A B : Type}.

Lemma bind_returns (m : M A) (k : A -> M B) srv tr a tr' :
  m srv tr = (Ret a, tr') -> bind m k srv tr = k a srv tr'.
Proof. intros H. unfold bind. now rewrite H. Qed.

Lemma bind_raises (m : M A) (k : A -> M B) srv tr e tr' :
  m srv tr = (Raise e, tr') -> bind m k srv tr = (Raise e, tr').
Proof. intros H. unfold bind. now rewrite H. Qed.

Lemma try_returns (m : M A) clauses srv tr a tr' :
  m srv tr = (Ret a, tr') -> try_except m clauses srv tr = (Ret a, tr').
Proof. intros H. unfold try_except. now rewrite H. Qed.

Lemma try_catches (m : M A) clauses srv tr e tr' h :
  m srv tr = (Raise e, tr') -> clauses e = Some h ->
  try_except m clauses srv tr = h srv tr'.
Proof. intros H C. unfold try_except. now rewrite H, C. Qed.

Lemma try_passes (m : M A) clauses srv tr e tr' :
  m srv tr = (Raise e, tr') -> clauses e = None ->
  try_except m clauses srv tr = (Raise e, tr').
Proof. intros H C. unfold try_except. now rewrite H, C. Qed.

Lemma bind_bind {C : Type} (m : M A) (k : A -> M B) (h : B -> M C) srv tr :
  bind (bind m k) h srv tr = bind m (fun a => bind (k a) h) srv tr.
Proof.
  unfold bind. destruct (m srv tr) as [[a|e] tr']; reflexivity.
Qed.

Lemma ret_run (a : A) srv tr : ret a srv tr = (Ret a, tr).
Proof. reflexivity. Qed.

End Running.

Lemma log_and_warn_run (m : fstring) srv tr :
  log_and_warn m srv tr = (Ret tt, tr ++ warned m).
Proof.
  unfold log_and_warn, bind, emit, warned.
  now rewrite <- app_assoc.
Qed.

Lemma log_and_success_run (m : fstring) srv tr :
  log_and_success m srv tr = (Ret tt, tr ++ [LogInfo m; GrSuccess m]).
Proof.
  unfold log_and_success, bind, emit.
  now rewrite <- app_assoc.
Qed.

Lemma handle_api_error_run (e : exn) (context : string) srv tr :
  handle_api_error e context srv tr
  = (Ret tt, tr ++ warned (api_error_message e context)).
Proof. apply log_and_warn_run. Qed.

Lemma http_requests_app (tr tr' : trace) :
  http_requests (tr ++ tr') = http_requests tr ++ http_requests tr'.
Proof.
  induction tr as [|ev tr IH]; simpl.
  - reflexivity.
  - destruct ev; simpl; now rewrite IH.
Qed.

Lemma sleeps_app (tr tr' : trace) :
  sleeps (tr ++ tr') = sleeps tr ++ sleeps tr'.
Proof.
  induction tr as [|ev tr IH]; simpl.
  - reflexivity.
  - destruct ev; simpl; now rewrite IH.
Qed.

(** ** Computations that only inspect values *)

Section Inspecting.

Lemma inspects_ret {A : Type} (a : A) : inspects (ret a).
Proof. intros srv tr; split; [reflexivity | discriminate]. Qed.

Lemma inspects_raise {A : Type} (e : exn) :
  shape_error e = true -> inspects (@raise A e).
Proof.
  intros H srv tr; split; [reflexivity |].
  simpl. intros e' E. now inversion E; subst.
Qed.

Lemma inspects_bind {A B : Type} (m : M A) (k : A -> M B) :
  inspects m -> (forall a, inspects (k a)) -> inspects (bind m k).
Proof.
  intros Hm Hk srv tr. unfold bind.
  destruct (Hm srv tr) as [Ht He].
  destruct (m srv tr) as [[a|e] tr']; simpl in *; subst tr'.
  - apply Hk.
  - split; [reflexivity |]. intros e' E. inversion E; subst e'. now apply He.
Qed.

Lemma inspects_py_contains k v : inspects (py_contains k v).
Proof.
  destruct v; simpl;
    first [apply inspects_ret | now apply inspects_raise].
Qed.

Lemma inspects_py_getitem v k : inspects (py_getitem v k).
Proof.
  destruct v; simpl; try (now apply inspects_raise).
  destruct (dict_lookup k d);
    first [apply inspects_ret | now apply inspects_raise].
Qed.

Lemma inspects_py_get v k d : inspects (py_get v k d).
Proof.
  destruct v as [| | | | |dict]; simpl; try (now apply inspects_raise).
  destruct (dict_lookup k dict); apply inspects_ret.
Qed.

Lemma inspects_py_iter v : inspects (py_iter v).
Proof.
  destruct v; simpl;
    first [apply inspects_ret | now apply inspects_raise].
Qed.

Lemma inspects_for_each {A B : Type} (f : A -> M B) (l : list A) :
  (forall a, inspects (f a)) -> inspects (for_each f l).
Proof.
  intros Hf. induction l as [|x l IH]; simpl.
  - apply inspects_ret.
  - apply inspects_bind; [apply Hf | intros y].
    apply inspects_bind; [exact IH | intros ys]. apply inspects_ret.
Qed.

Create HintDb inspect.

Hint Resolve inspects_ret inspects_py_contains inspects_py_getitem
  inspects_py_get inspects_py_iter : inspect.

Ltac inspect :=
  repeat first
    [ progress auto with inspect
    | apply inspects_bind; [| intros ?]
    | match goal with |- inspects (if ?b then _ else _) => destruct b end ].

Lemma inspects_collect_history (messages : list value) :
  forall history, inspects (collect_history history messages).
Proof.
  induction messages as [|msg rest IH]; intros history; simpl.
  - apply inspects_ret.
  - inspect.
Qed.

Lemma inspects_read_messages (data : value) : inspects (read_messages data).
Proof.
  unfold read_messages. inspect. apply inspects_collect_history.
Qed.

Lemma inspects_read_chats (data : value) : inspects (read_chats data).
Proof.
  unfold read_chats. inspect.
  apply inspects_for_each. intros p. inspect.
Qed.

End Inspecting.

(** ** The steps of a call *)

Lemma get_headers_token (auth_token : value) srv tr :
  truthy auth_token = true ->
  get_headers auth_token srv tr = (Ret (WithBearer auth_token), tr).
Proof. intros H. unfold get_headers. now rewrite H. Qed.

Lemma get_headers_no_token (auth_token : value) srv tr :
  truthy auth_token = false ->
  get_headers auth_token srv tr
  = (Raise (ValueError "Authentication token is missing."), tr).
Proof. intros H. unfold get_headers. now rewrite H. Qed.

Lemma send_request_answers (req : request) srv tr r :
  srv tr req = Answers r -> send_request req srv tr = (Ret r, tr ++ [Http req]).
Proof. intros H. unfold send_request. now rewrite H. Qed.

Lemma send_request_fails (req : request) srv tr resp :
  srv tr req = Fails resp ->
  send_request req srv tr = (Raise (RequestError resp), tr ++ [Http req]).
Proof. intros H. unfold send_request. now rewrite H. Qed.

Lemma raise_for_status_ok (r : response) srv tr :
  is_error_status r = false -> raise_for_status r srv tr = (Ret tt, tr).
Proof. intros H. unfold raise_for_status. now rewrite H. Qed.

Lemma raise_for_status_error (r : response) srv tr :
  is_error_status r = true ->
  raise_for_status r srv tr = (Raise (HTTPError r), tr).
Proof. intros H. unfold raise_for_status. now rewrite H. Qed.

Lemma response_json_ok (r : response) (data : value) srv tr :
  resp_body r = BodyJson data -> response_json r srv tr = (Ret data, tr).
Proof. intros H. unfold response_json. now rewrite H. Qed.

Lemma response_json_error (r : response) (text : string) srv tr :
  resp_body r = BodyText text ->
  response_json r srv tr = (Raise JSONDecodeError, tr).
Proof. intros H. unfold response_json. now rewrite H. Qed.

(** A request that is answered with a good status, or else the exception
    the call ends in. *)
Lemma call_outcome (o : reply) :
  (exists r, o = Answers r /\ is_error_status r = false
             /\ call_failure o = None)
  \/ (exists resp, o = Fails resp
                   /\ call_failure o = Some (RequestError resp))
  \/ (exists r, o = Answers r /\ is_error_status r = true
                /\ call_failure o = Some (HTTPError r)).
Proof.
  destruct o as [resp|r]; simpl.
  - right; left. now exists resp.
  - destruct (is_error_status r) eqn:E.
    + right; right. now exists r.
    + left. now exists r.
Qed.

Create HintDb run.
#[local] Hint Resolve get_headers_token get_headers_no_token
  send_request_answers send_request_fails raise_for_status_ok
  raise_for_status_error response_json_ok response_json_error
  log_and_warn_run log_and_success_run handle_api_error_run ret_run : run.

(** One step of a run: the first computation of a [bind] returns or raises,
    by one of the lemmas above. *)
Ltac run_first :=
  unfold requests_post, requests_delete, time_sleep, emit; eauto with run.

Ltac step :=
  first [ erewrite bind_returns by run_first
        | erewrite bind_raises by run_first ];
  cbv beta.

(** ** Fetching the history of a chat *)

Lemma get_chat_messages_eq (auth_token chat_id : value) :
  get_chat_messages auth_token chat_id
  = if negb (truthy chat_id)
    then ret ([], [Lit "Select a chat to see messages"])
    else
      try_except
        (headers <- get_headers auth_token ;;
         response <-
           requests_post API_ENDPOINTS.get_messages headers
             [("chat_id", chat_id)] None ;;
         raise_for_status response ;;
         data <- response_json response ;;
         read_messages data)
        (fun e =>
           if is_RequestException e || is_ValueError e
           then Some (handle_api_error e "fetching messages" ;;
                      ret ([], [Lit "Error loading messages"]))
           else if is_KeyError e || is_TypeError e
           then Some (log_and_warn
                        [Lit "Error parsing response: "; StrExn e] ;;
                      ret ([], [Lit "Could not parse message response"]))
           else None).
Proof. reflexivity. Qed.

Section Messages.

Variables (srv : server) (tr : trace) (auth_token chat_id : value).
Hypothesis selected : truthy chat_id = true.

(** Without a token no request leaves the client. *)
Lemma get_chat_messages_no_token :
  truthy auth_token = false ->
  get_chat_messages auth_token chat_id srv tr
  = (Ret ([], [Lit "Error loading messages"]),
     tr ++ warned (api_error_message
                     (ValueError "Authentication token is missing.")
                     "fetching messages")).
Proof.
  intros H. rewrite get_chat_messages_eq, selected. cbv [negb].
  erewrite try_catches; [| step; reflexivity | reflexivity].
  step. reflexivity.
Qed.

Hypothesis logged_in : truthy auth_token = true.

Let req := messages_request auth_token chat_id.
Let tr1 := tr ++ [Http req].

(** The call failed: the fallback is the empty history. *)
Lemma get_chat_messages_failed (e : exn) :
  call_failure (srv tr req) = Some e ->
  get_chat_messages auth_token chat_id srv tr
  = (Ret ([], [Lit "Error loading messages"]),
     tr1 ++ warned (api_error_message e "fetching messages")).
Proof.
  intros H. rewrite get_chat_messages_eq, selected. cbv [negb].
  destruct (call_outcome (srv tr req))
    as [(r & Hr & Hs & F) | [(resp & Hr & F) | (r & Hr & Hs & F)]];
    rewrite F in H; inversion H; subst e.
  - erewrite try_catches; [| step; step; reflexivity | reflexivity].
    step. reflexivity.
  - erewrite try_catches; [| step; step; step; reflexivity | reflexivity].
    step. reflexivity.
Qed.

(** The call went through but the body is not JSON. *)
Lemma get_chat_messages_undecodable (r : response) (text : string) :
  srv tr req = Answers r -> is_error_status r = false ->
  resp_body r = BodyText text ->
  get_chat_messages auth_token chat_id srv tr
  = (Ret ([], [Lit "Error loading messages"]),
     tr1 ++ warned (api_error_message JSONDecodeError "fetching messages")).
Proof.
  intros Hr Hs Hb. rewrite get_chat_messages_eq, selected. cbv [negb].
  erewrite try_catches;
    [| step; step; step; step; reflexivity | reflexivity].
  step. reflexivity.
Qed.

(** The call went through and the body decodes to [data]: what remains
    is reading [data], under the second [except] clause. *)
Lemma get_chat_messages_answered (r : response) (data : value) :
  srv tr req = Answers r -> is_error_status r = false ->
  resp_body r = BodyJson data ->
  get_chat_messages auth_token chat_id srv tr
  = match read_messages data srv tr1 with
    | (Ret result, tr') => (Ret result, tr')
    | (Raise e, tr') =>
        if is_KeyError e || is_TypeError e
        then (Ret ([], [Lit "Could not parse message response"]),
              tr' ++ warned [Lit "Error parsing response: "; StrExn e])
        else (Raise e, tr')
    end.
Proof.
  intros Hr Hs Hb. rewrite get_chat_messages_eq, selected. cbv [negb].
  unfold try_except at 1. do 4 step.
  destruct (inspects_read_messages data srv tr1) as [_ He].
  change (tr ++ [Http _]) with tr1.
  destruct (read_messages data srv tr1) as [[result|e] tr']; simpl in *.
  - reflexivity.
  - specialize (He e eq_refl).
    destruct e; try discriminate; simpl; try reflexivity; now step.
Qed.

(** Every run makes the one request; besides it only warnings are
    recorded, and the only exception that can leave is
    [AttributeError]. *)
Lemma get_chat_messages_run :
  exists w,
    snd (get_chat_messages auth_token chat_id srv tr) = tr1 ++ w
    /\ http_requests w = [] /\ sleeps w = []
    /\ forall e,
         fst (get_chat_messages auth_token chat_id srv tr) = Raise e ->
         e = AttributeError.
Proof.
  destruct (call_outcome (srv tr req))
    as [(r & Hr & Hs & F) | [(resp & Hr & F) | (r & Hr & Hs & F)]].
  - destruct (resp_body r) as [data|text] eqn:Hb.
    + rewrite (get_chat_messages_answered r data Hr Hs Hb).
      destruct (inspects_read_messages data srv tr1) as [Ht He].
      destruct (read_messages data srv tr1) as [[result|e] tr'];
        simpl in *; subst tr'.
      * exists []. rewrite app_nil_r. repeat split; try reflexivity.
        discriminate.
      * specialize (He e eq_refl).
        destruct e; try discriminate; simpl.
        -- eexists; repeat split; try reflexivity. discriminate.
        -- eexists; repeat split; try reflexivity. discriminate.
        -- exists []. rewrite app_nil_r. repeat split; try reflexivity.
           intros e E. now inversion E.
    + rewrite (get_chat_messages_undecodable r text Hr Hs Hb). simpl.
      eexists; repeat split; try reflexivity. discriminate.
  - rewrite (get_chat_messages_failed _ F). simpl.
    eexists; repeat split; try reflexivity. discriminate.
  - rewrite (get_chat_messages_failed _ F). simpl.
    eexists; repeat split; try reflexivity. discriminate.
Qed.

End Messages.

(** ** Fetching the list of chats *)

Lemma get_chats_eq (auth_token : value) :
  get_chats auth_token
  = try_except
      (headers <- get_headers auth_token ;;
       response <- requests_post API_ENDPOINTS.get_chats headers [] None ;;
       raise_for_status response ;;
       data <- response_json response ;;
       read_chats data)
      (fun e =>
         if is_RequestException e || is_ValueError e
         then Some (handle_api_error e "fetching chats" ;; ret [])
         else None).
Proof. reflexivity. Qed.

Section Chats.

Variables (srv : server) (tr : trace) (auth_token : value).

Lemma get_chats_no_token :
  truthy auth_token = false ->
  get_chats auth_token srv tr
  = (Ret [],
     tr ++ warned (api_error_message
                     (ValueError "Authentication token is missing.")
                     "fetching chats")).
Proof.
  intros H. rewrite get_chats_eq.
  erewrite try_catches; [| step; reflexivity | reflexivity].
  step. reflexivity.
Qed.

Hypothesis logged_in : truthy auth_token = true.

Let req := chats_request auth_token.
Let tr1 := tr ++ [Http req].

(** The call failed: the fallback is the empty list. *)
Lemma get_chats_failed (e : exn) :
  call_failure (srv tr req) = Some e ->
  get_chats auth_token srv tr
  = (Ret [], tr1 ++ warned (api_error_message e "fetching chats")).
Proof.
  intros H. rewrite get_chats_eq.
  destruct (call_outcome (srv tr req))
    as [(r & Hr & Hs & F) | [(resp & Hr & F) | (r & Hr & Hs & F)]];
    rewrite F in H; inversion H; subst e.
  - erewrite try_catches; [| step; step; reflexivity | reflexivity].
    step. reflexivity.
  - erewrite try_catches; [| step; step; step; reflexivity | reflexivity].
    step. reflexivity.
Qed.

Lemma get_chats_undecodable (r : response) (text : string) :
  srv tr req = Answers r -> is_error_status r = false ->
  resp_body r = BodyText text ->
  get_chats auth_token srv tr
  = (Ret [], tr1 ++ warned (api_error_message JSONDecodeError
                              "fetching chats")).
Proof.
  intros Hr Hs Hb. rewrite get_chats_eq.
  erewrite try_catches;
    [| step; step; step; step; reflexivity | reflexivity].
  step. reflexivity.
Qed.

(** The call went through and the body decodes to [data]: the result is
    that of reading [data], and no [except] clause applies to what the
    reading raises. *)
Lemma get_chats_answered (r : response) (data : value) :
  srv tr req = Answers r -> is_error_status r = false ->
  resp_body r = BodyJson data ->
  get_chats auth_token srv tr = read_chats data srv tr1.
Proof.
  intros Hr Hs Hb. rewrite get_chats_eq.
  unfold try_except at 1. do 4 step.
  destruct (inspects_read_chats data srv tr1) as [_ He].
  change (tr ++ [Http _]) with tr1.
  destruct (read_chats data srv tr1) as [[result|e] tr']; simpl in *.
  - reflexivity.
  - specialize (He e eq_refl).
    destruct e; try discriminate; reflexivity.
Qed.

(** Every run makes the one request; besides it only warnings are
    recorded. *)
Lemma get_chats_run :
  exists w,
    snd (get_chats auth_token srv tr) = tr1 ++ w
    /\ http_requests w = [] /\ sleeps w = [].
Proof.
  destruct (call_outcome (srv tr req))
    as [(r & Hr & Hs & F) | [(resp & Hr & F) | (r & Hr & Hs & F)]].
  - destruct (resp_body r) as [data|text] eqn:Hb.
    + rewrite (get_chats_answered r data Hr Hs Hb).
      destruct (inspects_read_chats data srv tr1) as [Ht _].
      rewrite Ht. exists []. now rewrite app_nil_r.
    + rewrite (get_chats_undecodable r text Hr Hs Hb). simpl.
      eexists; repeat split; reflexivity.
  - rewrite (get_chats_failed _ F). simpl.
    eexists; repeat split; reflexivity.
  - rewrite (get_chats_failed _ F). simpl.
    eexists; repeat split; reflexivity.
Qed.

End Chats.

(** ** Reading payloads of the documented shape *)

(** One test of the loop body: the turn is added when the field holds a
    true value. *)
Lemma add_turn_run {B : Type} srv tr (meta : list (string * value))
  (field who : string) (history : list turn) (k : list turn -> M B) :
  bind (py_get (VDict meta) field VNone)
    (fun x =>
       bind (if truthy x
             then c <- py_getitem (VDict meta) field ;;
                  ret (history ++ [mkTurn who c])
             else ret history) k) srv tr
  = k (history
       ++ match dict_lookup field meta with
          | Some v => if truthy v then [mkTurn who v] else []
          | None => []
          end) srv tr.
Proof.
  unfold bind at 1. simpl py_get.
  destruct (dict_lookup field meta) as [v|] eqn:E; unfold ret at 1.
  - destruct (truthy v).
    + unfold bind at 1. unfold bind at 1. simpl py_getitem. rewrite E.
      reflexivity.
    + unfold bind at 1. unfold ret at 1. now rewrite app_nil_r.
  - simpl truthy. cbv iota. unfold bind at 1. unfold ret at 1.
    now rewrite app_nil_r.
Qed.

Lemma collect_history_turns srv tr (messages : list value) :
  forall (metas : list (list (string * value))) (history : list turn),
    map metadata_of messages = map Some metas ->
    collect_history history messages srv tr
    = (Ret (history ++ flat_map turns_of_entry metas), tr).
Proof.
  induction messages as [|msg rest IH]; intros metas history H;
    destruct metas as [|meta metas]; try discriminate.
  - simpl. now rewrite app_nil_r.
  - simpl in H. inversion H as [[Hm Hrest]]. clear H.
    unfold metadata_of in Hm.
    destruct msg as [| | | | |entry]; try discriminate.
    assert (G : py_get (VDict entry) "metadata" (VDict []) srv tr
                = (Ret (VDict meta), tr)).
    { simpl. destruct (dict_lookup "metadata" entry) as [[]|];
        try discriminate; now inversion Hm. }
    change (collect_history history (VDict entry :: rest))
      with (meta <- py_get (VDict entry) "metadata" (VDict []) ;;
            text <- py_get meta "text" VNone ;;
            history <- (if truthy text
                        then c <- py_getitem meta "text" ;;
                             ret (history ++ [mkTurn "user" c])
                        else ret history) ;;
            bot <- py_get meta "bot" VNone ;;
            history <- (if truthy bot
                        then c <- py_getitem meta "bot" ;;
                             ret (history ++ [mkTurn "assistant" c])
                        else ret history) ;;
            collect_history history rest).
    rewrite (bind_returns _ _ _ _ _ _ G). cbv beta.
    rewrite add_turn_run, add_turn_run, (IH metas _ Hrest).
    simpl flat_map. unfold turns_of_entry.
    now rewrite <- !app_assoc.
Qed.

Lemma for_each_chats srv tr (points : list value) :
  forall (chats : list chat),
    map chat_of_point points = map Some chats ->
    for_each
      (fun p =>
         metadata <- py_getitem p "metadata" ;;
         name <- py_get metadata "name" (VStr "Unnamed Chat") ;;
         id <- py_getitem p "id" ;;
         ret (name, id))
      points srv tr
    = (Ret chats, tr).
Proof.
  induction points as [|p rest IH]; intros chats H;
    destruct chats as [|c chats]; try discriminate; simpl.
  - reflexivity.
  - simpl in H. inversion H as [[Hp Hrest]]. clear H.
    unfold chat_of_point in Hp.
    destruct p as [| | | | |point]; try discriminate.
    destruct (dict_lookup "metadata" point) as [[| | | | |metadata]|] eqn:Em;
      try discriminate.
    destruct (dict_lookup "id" point) as [id|] eqn:Ei; try discriminate.
    inversion Hp; subst c. clear Hp.
    unfold bind at 1. unfold bind at 1. simpl. rewrite Em. simpl.
    unfold bind at 1. simpl.
    destruct (dict_lookup "name" metadata) as [name|]; simpl;
      unfold bind at 1; simpl; rewrite Ei; simpl;
      unfold bind at 1; rewrite (IH chats Hrest); reflexivity.
Qed.

(** ** Sending a message *)

Lemma send_message_and_get_reply_eq (auth_token chat_id : value)
  (text : string) :
  truthy chat_id = true -> all_space text = false ->
  send_message_and_get_reply auth_token chat_id text
  = try_except
      (headers <- get_headers auth_token ;;
       send_response <-
         requests_post API_ENDPOINTS.send_message headers []
           (Some (VDict [("text", VStr text); ("chat_id", chat_id)])) ;;
       raise_for_status send_response ;;
       time_sleep 1 ;;
       '(updated_history, _) <- get_chat_messages auth_token chat_id ;;
       ret (Some updated_history))
      (fun e =>
         if is_RequestException e || is_ValueError e
         then Some (handle_api_error e "sending message" ;; ret None)
         else None).
Proof.
  intros Hid Htext. unfold send_message_and_get_reply.
  now rewrite Hid, blank_all_space, Htext.
Qed.

Section Sending.

Variables (srv : server) (tr : trace) (auth_token chat_id : value).
Variable text : string.
Hypothesis logged_in : truthy auth_token = true.
Hypothesis selected : truthy chat_id = true.
Hypothesis not_blank : all_space text = false.

Let req := message_request auth_token chat_id text.

(** The send went through: the delay, then the fetch, whose history is
    the result. *)
Lemma send_message_and_get_reply_sent :
  call_failure (srv tr req) = None ->
  send_message_and_get_reply auth_token chat_id text srv tr
  = match get_chat_messages auth_token chat_id srv
            (tr ++ [Http req; Sleep 1]) with
    | (Ret (history, _), tr') => (Ret (Some history), tr')
    | (Raise e, tr') => (Raise e, tr')
    end.
Proof.
  intros F.
  rewrite send_message_and_get_reply_eq by assumption.
  destruct (call_outcome (srv tr req))
    as [(r & Hr & Hs & F') | [(resp & Hr & F') | (r & Hr & Hs & F')]];
    rewrite F' in F; try discriminate.
  unfold try_except. do 4 step.
  rewrite <- app_assoc. simpl app.
  change (mkRequest POST _ _ _ _) with req.
  destruct (get_chat_messages_run srv (tr ++ [Http req; Sleep 1])
              auth_token chat_id selected logged_in)
    as (w & _ & _ & _ & He).
  unfold bind.
  destruct (get_chat_messages auth_token chat_id srv
              (tr ++ [Http req; Sleep 1])) as [[[history label]|e] tr'].
  - reflexivity.
  - rewrite (He e eq_refl). reflexivity.
Qed.

(** The send failed: the failure is reported and nothing else happens. *)
Lemma send_message_and_get_reply_failed (e : exn) :
  call_failure (srv tr req) = Some e ->
  send_message_and_get_reply auth_token chat_id text srv tr
  = (Ret None,
     tr ++ Http req :: warned (api_error_message e "sending message")).
Proof.
  intros F.
  rewrite send_message_and_get_reply_eq by assumption.
  destruct (call_outcome (srv tr req))
    as [(r & Hr & Hs & F') | [(resp & Hr & F') | (r & Hr & Hs & F')]];
    rewrite F' in F; inversion F; subst e.
  - erewrite try_catches; [| step; step; reflexivity | reflexivity].
    step. rewrite <- app_assoc. reflexivity.
  - erewrite try_catches; [| step; step; step; reflexivity | reflexivity].
    step. rewrite <- app_assoc. reflexivity.
Qed.

End Sending.

(** C1. Send and reconcile.  For a selected chat and a text that is not
    only white space: when the send call succeeds, the handler waits the
    fixed delay, fetches the history of the chat, and returns it with an
    empty string for the input field; when the send call fails, it does
    not wait, reports the failure, fetches the history again, and returns
    it with the text as it was typed. *)
Theorem send_then_reconcile (srv : server) (tr : trace)
  (auth_token selected_chat_id : value) (text : string) :
  truthy auth_token = true ->
  truthy selected_chat_id = true ->
  all_space text = false ->
  let req := message_request auth_token selected_chat_id text in
  (call_failure (srv tr req) = None ->
   handle_send_and_refresh selected_chat_id text auth_token srv tr
   = match get_chat_messages auth_token selected_chat_id srv
             (tr ++ [Http req; Sleep 1]) with
     | (Ret (history, _), tr') => (Ret (history, ""), tr')
     | (Raise e, tr') => (Raise e, tr')
     end
   /\ sleeps (snd (handle_send_and_refresh selected_chat_id text auth_token
                     srv tr))
      = sleeps tr ++ [1%Z])
  /\ (forall e,
        call_failure (srv tr req) = Some e ->
        handle_send_and_refresh selected_chat_id text auth_token srv tr
        = match get_chat_messages auth_token selected_chat_id srv
                  (tr ++ Http req
                      :: warned (api_error_message e "sending message")) with
          | (Ret (history, _), tr') => (Ret (history, text), tr')
          | (Raise e', tr') => (Raise e', tr')
          end
        /\ sleeps (snd (handle_send_and_refresh selected_chat_id text
                          auth_token srv tr))
           = sleeps tr).
Proof.
  intros Htok Hid Htext req.
  assert (Hsent :
    call_failure (srv tr req) = None ->
    handle_send_and_refresh selected_chat_id text auth_token srv tr
    = match get_chat_messages auth_token selected_chat_id srv
              (tr ++ [Http req; Sleep 1]) with
      | (Ret (history, _), tr') => (Ret (history, ""), tr')
      | (Raise e, tr') => (Raise e, tr')
      end).
  { intros F. unfold handle_send_and_refresh. rewrite Hid. cbv [negb].
    unfold bind at 1.
    rewrite (send_message_and_get_reply_sent srv tr auth_token
               selected_chat_id text Htok Hid Htext F).
    fold req.
    destruct (get_chat_messages auth_token selected_chat_id srv
                (tr ++ [Http req; Sleep 1])) as [[[history label]|e] tr'];
      reflexivity. }
  assert (Hfailed : forall e,
    call_failure (srv tr req) = Some e ->
    handle_send_and_refresh selected_chat_id text auth_token srv tr
    = match get_chat_messages auth_token selected_chat_id srv
              (tr ++ Http req
                  :: warned (api_error_message e "sending message")) with
      | (Ret (history, _), tr') => (Ret (history, text), tr')
      | (Raise e', tr') => (Raise e', tr')
      end).
  { intros e F. unfold handle_send_and_refresh. rewrite Hid. cbv [negb].
    unfold bind at 1.
    rewrite (send_message_and_get_reply_failed srv tr auth_token
               selected_chat_id text Htok Hid Htext e F).
    fold req. unfold bind.
    destruct (get_chat_messages auth_token selected_chat_id srv
                (tr ++ Http req
                    :: warned (api_error_message e "sending message")))
      as [[[history label]|e'] tr']; reflexivity. }
  split.
  - intros F. split; [exact (Hsent F)|].
    rewrite (Hsent F).
    destruct (get_chat_messages_run srv (tr ++ [Http req; Sleep 1])
                auth_token selected_chat_id Hid Htok)
      as (w & Ht & _ & Hs & _).
    destruct (get_chat_messages auth_token selected_chat_id srv
                (tr ++ [Http req; Sleep 1])) as [[[history label]|e] tr'];
      simpl in *; subst tr';
      rewrite !sleeps_app, Hs; simpl; now rewrite !app_nil_r.
  - intros e F. split; [exact (Hfailed e F)|].
    rewrite (Hfailed e F).
    destruct (get_chat_messages_run srv
                (tr ++ Http req
                    :: warned (api_error_message e "sending message"))
                auth_token selected_chat_id Hid Htok)
      as (w & Ht & _ & Hs & _).
    destruct (get_chat_messages auth_token selected_chat_id srv
                (tr ++ Http req
                    :: warned (api_error_message e "sending message")))
      as [[[history label]|e'] tr'];
      simpl in *; subst tr';
      rewrite !sleeps_app, Hs; simpl; now rewrite !app_nil_r.
Qed.

(** C10. A blank message.  With a chat selected and a text that is empty
    or only white space, the handler sends nothing: it warns, fetches the
    history of the selected chat, and returns that history together with
    the text as it was typed.  The only request of the run is the
    list-messages fetch (made when there is a token to make it with). *)
Theorem blank_message_refetches (srv : server) (tr : trace)
  (auth_token selected_chat_id : value) (text : string) :
  truthy selected_chat_id = true ->
  all_space text = true ->
  handle_send_and_refresh selected_chat_id text auth_token srv tr
  = match get_chat_messages auth_token selected_chat_id srv
            (tr ++ warned [Lit "Cannot send an empty message."]) with
    | (Ret (history, _), tr') => (Ret (history, text), tr')
    | (Raise e, tr') => (Raise e, tr')
    end
  /\ http_requests
       (snd (handle_send_and_refresh selected_chat_id text auth_token srv tr))
     = http_requests tr
       ++ (if truthy auth_token
           then [messages_request auth_token selected_chat_id]
           else []).
Proof.
  intros Hid Htext.
  assert (E :
    handle_send_and_refresh selected_chat_id text auth_token srv tr
    = match get_chat_messages auth_token selected_chat_id srv
              (tr ++ warned [Lit "Cannot send an empty message."]) with
      | (Ret (history, _), tr') => (Ret (history, text), tr')
      | (Raise e, tr') => (Raise e, tr')
      end).
  { unfold handle_send_and_refresh, send_message_and_get_reply.
    rewrite Hid, blank_all_space, Htext. cbv [negb].
    rewrite bind_bind. do 2 step. unfold bind.
    destruct (get_chat_messages auth_token selected_chat_id srv
                (tr ++ warned [Lit "Cannot send an empty message."]))
      as [[[history label]|e] tr']; reflexivity. }
  split; [exact E|]. rewrite E.
  destruct (truthy auth_token) eqn:Htok.
  - destruct (get_chat_messages_run srv
                (tr ++ warned [Lit "Cannot send an empty message."])
                auth_token selected_chat_id Hid Htok)
      as (w & Ht & Hw & _ & _).
    destruct (get_chat_messages auth_token selected_chat_id srv
                (tr ++ warned [Lit "Cannot send an empty message."]))
      as [[[history label]|e] tr'];
      simpl in *; subst tr';
      rewrite !http_requests_app, Hw; simpl; now rewrite !app_nil_r.
  - rewrite (get_chat_messages_no_token srv _ auth_token selected_chat_id
               Hid Htok).
    simpl. rewrite !http_requests_app. simpl. now rewrite !app_nil_r.
Qed.

(** C5. Validation before the network.  [rename_chat] with a name of
    white space only, [rename_chat] and [send_message_and_get_reply]
    without a chat id, the two handlers without a selected chat, and
    [login] with an empty username or password: each returns after its
    warning, and the warning is all that is added to the trace. *)
Theorem validation_makes_no_request (srv : server) (tr : trace)
  (auth_token chat_id : value) (new_name text username password : string) :
  (truthy chat_id = true -> all_space new_name = true ->
   rename_chat auth_token chat_id new_name srv tr
   = (Ret tt, tr ++ warned [Lit "New name cannot be empty."]))
  /\ (truthy chat_id = false ->
      rename_chat auth_token chat_id new_name srv tr
      = (Ret tt, tr ++ warned [Lit "Please select a chat to rename."])
      /\ handle_rename_chat chat_id new_name auth_token srv tr
         = (Ret (no_change, Update no_change, new_name),
            tr ++ [GrWarning [Lit "Please select a chat to rename."]])
      /\ send_message_and_get_reply auth_token chat_id text srv tr
         = (Ret None,
            tr ++ warned [Lit "Cannot send message: no chat selected."])
      /\ handle_send_and_refresh chat_id text auth_token srv tr
         = (Ret ([], ""), tr ++ warned [Lit "Please select a chat first."]))
  /\ (username = "" \/ password = "" ->
      login username password srv tr
      = (Ret login_failed,
         tr ++ [GrWarning [Lit "Username and Password are required."]])).
Proof.
  repeat split.
  - intros Hid Hname. unfold rename_chat.
    rewrite Hid, blank_all_space, Hname. apply log_and_warn_run.
  - unfold rename_chat. rewrite H. apply log_and_warn_run.
  - unfold handle_rename_chat. rewrite H. reflexivity.
  - unfold send_message_and_get_reply. rewrite H. cbv [negb].
    now step.
  - unfold handle_send_and_refresh. rewrite H. cbv [negb].
    now step.
  - intros [H | H]; subst; unfold login.
    + reflexivity.
    + rewrite orb_true_r. reflexivity.
Qed.

(** C7. Logout.  Whatever happened before, [logout] returns the same
    tuple: login view shown, main view hidden, no token, no chats, no
    selected chat, no history, an emptied selector and two empty
    credential fields.  It logs the event and sends nothing. *)
Theorem logout_result (srv : server) (tr : trace) :
  logout srv tr
  = (Ret (update_visible true, update_visible false, VNone, [], VNone, [],
          update_choices_value [] VNone, "", ""),
     tr ++ [LogInfo [Lit "User logged out."]; GrInfo [Lit "User logged out."]])
  /\ http_requests (snd (logout srv tr)) = http_requests tr.
Proof.
  assert (E : logout srv tr
              = (Ret (update_visible true, update_visible false, VNone, [],
                      VNone, [], update_choices_value [] VNone, "", ""),
                 tr ++ [LogInfo [Lit "User logged out."];
                        GrInfo [Lit "User logged out."]])).
  { unfold logout, log_and_info, bind, emit, ret.
    now rewrite <- app_assoc. }
  split; [exact E|].
  rewrite E. simpl. rewrite http_requests_app. simpl. apply app_nil_r.
Qed.

(** C9. Refresh without a token.  With no auth token the refresh returns
    empty selector choices and an empty chat list, and the trace is left
    as it was: no request, no warning, no log line. *)
Theorem refresh_without_token (srv : server) (tr : trace)
  (auth_token : value) :
  truthy auth_token = false ->
  refresh_and_update_components auth_token srv tr
  = (Ret (update_choices [], []), tr).
Proof.
  intros H. unfold refresh_and_update_components. now rewrite H.
Qed.

(** ** Deleting and renaming *)

Section Managing.

Variables (srv : server) (tr : trace) (auth_token chat_id : value).
Hypothesis selected : truthy chat_id = true.

(** [delete_chat] returns whatever becomes of the call; with a token the
    one request it makes is the delete. *)
Lemma delete_chat_run :
  exists tr1,
    delete_chat auth_token chat_id srv tr = (Ret tt, tr1)
    /\ (truthy auth_token = true ->
        http_requests tr1
        = http_requests tr ++ [delete_request auth_token chat_id]).
Proof.
  unfold delete_chat. rewrite selected. cbv [negb].
  destruct (truthy auth_token) eqn:Htok.
  - destruct (call_outcome (srv tr (delete_request auth_token chat_id)))
      as [(r & Hr & Hs & F) | [(resp & Hr & F) | (r & Hr & Hs & F)]].
    + eexists. split.
      * apply try_returns. do 2 step. now apply raise_for_status_ok.
      * intros _. now rewrite http_requests_app.
    + eexists. split.
      * erewrite try_catches; [| step; step; reflexivity | reflexivity].
        apply handle_api_error_run.
      * intros _. rewrite !http_requests_app. simpl. apply app_nil_r.
    + eexists. split.
      * erewrite try_catches;
          [| step; step; now apply raise_for_status_error | reflexivity].
        apply handle_api_error_run.
      * intros _. rewrite !http_requests_app. simpl. apply app_nil_r.
  - eexists. split.
    + erewrite try_catches; [| step; reflexivity | reflexivity].
      apply handle_api_error_run.
    + discriminate.
Qed.

Variable new_name : string.

(** [rename_chat] returns whatever becomes of the call; with a token and
    a name that is not blank, the one request it makes is the rename. *)
Lemma rename_chat_run :
  exists tr1,
    rename_chat auth_token chat_id new_name srv tr = (Ret tt, tr1)
    /\ (truthy auth_token = true -> all_space new_name = false ->
        http_requests tr1
        = http_requests tr
          ++ [rename_request auth_token chat_id new_name]).
Proof.
  unfold rename_chat. rewrite selected, blank_all_space. cbv [negb].
  destruct (all_space new_name) eqn:Hname.
  { eexists. split; [apply log_and_warn_run | discriminate]. }
  destruct (truthy auth_token) eqn:Htok.
  - destruct (call_outcome
                (srv tr (rename_request auth_token chat_id new_name)))
      as [(r & Hr & Hs & F) | [(resp & Hr & F) | (r & Hr & Hs & F)]].
    + eexists. split.
      * apply try_returns. do 3 step. apply log_and_success_run.
      * intros _ _. rewrite !http_requests_app. simpl. apply app_nil_r.
    + eexists. split.
      * erewrite try_catches; [| step; step; reflexivity | reflexivity].
        apply handle_api_error_run.
      * intros _ _. rewrite !http_requests_app. simpl. apply app_nil_r.
    + eexists. split.
      * erewrite try_catches;
          [| step; step; step; reflexivity | reflexivity].
        apply handle_api_error_run.
      * intros _ _. rewrite !http_requests_app. simpl. apply app_nil_r.
  - eexists. split.
    + erewrite try_catches; [| step; reflexivity | reflexivity].
      apply handle_api_error_run.
    + discriminate.
Qed.

End Managing.

(** The lookup behind the name of the deleted chat: nothing is found when
    no chat of the list has the id, and otherwise the name found is that of
    the first chat with the id. *)
Lemma get_name_from_id_miss (selected_id : value) (chat_list : list chat) :
  (forall c, In c chat_list -> py_eq (snd c) selected_id = false) ->
  get_name_from_id selected_id chat_list = VNone.
Proof.
  induction chat_list as [|[n i] rest IH]; intros Hnone; simpl.
  - reflexivity.
  - pose proof (Hnone (n, i) (or_introl eq_refl)) as E.
    simpl in E. rewrite E.
    apply IH. intros c Hc. apply Hnone. now right.
Qed.

Lemma get_name_from_id_found (selected_id : value)
  (before after : list chat) (name id : value) :
  (forall c, In c before -> py_eq (snd c) selected_id = false) ->
  py_eq id selected_id = true ->
  get_name_from_id selected_id (before ++ (name, id) :: after) = name.
Proof.
  induction before as [|[n i] before IH]; intros Hbefore Hid; simpl.
  - now rewrite Hid.
  - pose proof (Hbefore (n, i) (or_introl eq_refl)) as E.
    simpl in E. rewrite E.
    apply IH; [|exact Hid]. intros c Hc. apply Hbefore. now right.
Qed.

(** C4. Delete.  With a chat selected, the handler names the chat by the
    id-to-name lookup: the name is that of the first chat of the list
    whose id equals the selected id, and the raw id stands in when the
    lookup finds nothing (or finds a name that is a false value).  It
    attempts the delete, which returns whether the call succeeded or
    failed; it reports the deletion under that name, refreshes the chat
    list, and returns the refreshed list with no selection and an empty
    history. *)
Theorem delete_clears_selection (srv : server) (tr : trace)
  (selected_id : value) (chat_list_data : list chat) (auth_token : value) :
  truthy selected_id = true ->
  let chat_name :=
    py_or (get_name_from_id selected_id chat_list_data) selected_id in
  let done := [Lit "Chat '"; Str chat_name; Lit "' deleted."] in
  (get_name_from_id selected_id chat_list_data = VNone ->
   chat_name = selected_id)
  /\ ((forall c, In c chat_list_data -> py_eq (snd c) selected_id = false) ->
      chat_name = selected_id)
  /\ (forall (before : list chat) (name id : value) (after : list chat),
        chat_list_data = before ++ (name, id) :: after ->
        (forall c, In c before -> py_eq (snd c) selected_id = false) ->
        py_eq id selected_id = true ->
        chat_name = if truthy name then name else selected_id)
  /\ exists tr1,
       delete_chat auth_token selected_id srv tr = (Ret tt, tr1)
       /\ (truthy auth_token = true ->
           http_requests tr1
           = http_requests tr ++ [delete_request auth_token selected_id])
       /\ handle_delete_chat selected_id chat_list_data auth_token srv tr
          = match refresh_and_update_components auth_token srv
                    (tr1 ++ [LogInfo done; GrSuccess done]) with
            | (Ret (updated_choices, updated_list), tr2) =>
                (Ret (updated_choices, Value updated_list, Value VNone,
                      Value []), tr2)
            | (Raise e, tr2) => (Raise e, tr2)
            end.
Proof.
  intros Hid chat_name done.
  refine (conj _ (conj _ (conj _ _))).
  - intros H. unfold chat_name, py_or. now rewrite H.
  - intros Hnone. unfold chat_name, py_or.
    now rewrite (get_name_from_id_miss selected_id chat_list_data Hnone).
  - intros before name id after Hlist Hbefore Hmatch.
    pose proof (get_name_from_id_found selected_id before after name id
                  Hbefore Hmatch) as Hname.
    rewrite <- Hlist in Hname.
    unfold chat_name, py_or. now rewrite Hname.
  - destruct (delete_chat_run srv tr auth_token selected_id Hid)
      as (tr1 & Hdel & Hreq).
    exists tr1. repeat split; try assumption.
    unfold handle_delete_chat. rewrite Hid.
    fold chat_name. fold done.
    erewrite bind_returns by exact Hdel. cbv beta. step.
    unfold bind.
    destruct (refresh_and_update_components auth_token srv
                (tr1 ++ [LogInfo done; GrSuccess done]))
      as [[[updated_choices updated_list]|e] tr2]; reflexivity.
Qed.

(** C8. Rename.  With a chat selected, the handler makes the rename call,
    which returns whether it succeeded or failed; then, with no test of
    that outcome, it refreshes the chat list and returns the refreshed
    list with an empty string for the rename field. *)
Theorem rename_then_refresh (srv : server) (tr : trace)
  (selected_id : value) (new_name : string) (auth_token : value) :
  truthy selected_id = true ->
  exists tr1,
    rename_chat auth_token selected_id new_name srv tr = (Ret tt, tr1)
    /\ (truthy auth_token = true -> all_space new_name = false ->
        http_requests tr1
        = http_requests tr
          ++ [rename_request auth_token selected_id new_name])
    /\ handle_rename_chat selected_id new_name auth_token srv tr
       = match refresh_and_update_components auth_token srv tr1 with
         | (Ret (refreshed_choices, refreshed_list), tr2) =>
             (Ret (refreshed_choices, Value refreshed_list, ""), tr2)
         | (Raise e, tr2) => (Raise e, tr2)
         end.
Proof.
  intros Hid.
  destruct (rename_chat_run srv tr auth_token selected_id Hid new_name)
    as (tr1 & Hren & Hreq).
  exists tr1. repeat split; try assumption.
  unfold handle_rename_chat. rewrite Hid. cbv [negb].
  erewrite bind_returns by exact Hren. cbv beta.
  unfold bind.
  destruct (refresh_and_update_components auth_token srv tr1)
    as [[[refreshed_choices refreshed_list]|e] tr2]; reflexivity.
Qed.

(** ** The history and the chat list of well-formed responses *)

(** C3, as amended.  For a well-formed list-messages response the history
    is built entry by entry, in order: an entry contributes a user turn
    when its metadata has a [text] field holding a true value (present,
    not null, not empty), and then an assistant turn when it has such a
    [bot] field, each test made on its own.  An entry with both fields
    holding true values contributes exactly two turns, user then
    assistant. *)
Theorem history_of_wellformed_response (srv : server) (tr : trace)
  (auth_token chat_id : value) (r : response)
  (data container : list (string * value)) (points : list value)
  (metas : list (list (string * value))) :
  truthy auth_token = true ->
  truthy chat_id = true ->
  srv tr (messages_request auth_token chat_id) = Answers r ->
  is_error_status r = false ->
  resp_body r = BodyJson (VDict data) ->
  dict_lookup "Messages" data = Some (VDict container) ->
  dict_lookup "points" container = Some (VList points) ->
  map metadata_of points = map Some metas ->
  get_chat_messages auth_token chat_id srv tr
  = (Ret (flat_map turns_of_entry metas,
          [Lit "History for: ";
           Str (match dict_lookup "Name" data with
                | Some name => name
                | None => VStr "Current Chat"
                end)]),
     tr ++ [Http (messages_request auth_token chat_id)])
  /\ forall meta t b,
       dict_lookup "text" meta = Some t -> truthy t = true ->
       dict_lookup "bot" meta = Some b -> truthy b = true ->
       turns_of_entry meta = [mkTurn "user" t; mkTurn "assistant" b].
Proof.
  intros Htok Hid Hr Hs Hb Hm Hp Hmetas. split.
  - rewrite (get_chat_messages_answered srv tr auth_token chat_id Hid Htok
               r (VDict data) Hr Hs Hb).
    set (tr1 := tr ++ [Http (messages_request auth_token chat_id)]).
    assert (Hname :
      py_get (VDict data) "Name" (VStr "Current Chat") srv tr1
      = (Ret (match dict_lookup "Name" data with
              | Some name => name
              | None => VStr "Current Chat"
              end), tr1)).
    { simpl. now destruct (dict_lookup "Name" data). }
    assert (Hcontainer :
      py_get (VDict data) "Messages" (VDict []) srv tr1
      = (Ret (VDict container), tr1)).
    { simpl. now rewrite Hm. }
    assert (Hpoints :
      py_get (VDict container) "points" (VList []) srv tr1
      = (Ret (VList points), tr1)).
    { simpl. now rewrite Hp. }
    unfold read_messages.
    erewrite bind_returns by exact Hname. cbv beta.
    erewrite bind_returns by exact Hcontainer. cbv beta.
    erewrite bind_returns by exact Hpoints. cbv beta.
    erewrite bind_returns by reflexivity. cbv beta.
    erewrite bind_returns by (apply collect_history_turns; exact Hmetas).
    reflexivity.
  - intros meta t b Ht Tt Hbot Tb. unfold turns_of_entry.
    now rewrite Ht, Tt, Hbot, Tb.
Qed.

(** C6, as amended.  For a successful list-chats response whose points
    each carry an [id] and a [metadata] object, the chat list has one
    entry per point, in order; the entry holds the id exactly as the
    server sent it, and the name of the metadata, or the placeholder
    when the metadata has no [name]. *)
Theorem chats_of_wellformed_response (srv : server) (tr : trace)
  (auth_token : value) (r : response) (data : list (string * value))
  (points : list value) (chats : list chat) :
  truthy auth_token = true ->
  srv tr (chats_request auth_token) = Answers r ->
  is_error_status r = false ->
  resp_body r = BodyJson (VDict data) ->
  dict_lookup "points" data = Some (VList points) ->
  map chat_of_point points = map Some chats ->
  get_chats auth_token srv tr
  = (Ret chats, tr ++ [Http (chats_request auth_token)])
  /\ Forall2
       (fun p c =>
          exists point metadata,
            p = VDict point
            /\ dict_lookup "metadata" point = Some (VDict metadata)
            /\ dict_lookup "id" point = Some (snd c)
            /\ (dict_lookup "name" metadata = None ->
                fst c = VStr "Unnamed Chat")
            /\ (forall name, dict_lookup "name" metadata = Some name ->
                             fst c = name))
       points chats.
Proof.
  intros Htok Hr Hs Hb Hp Hchats. split.
  - rewrite (get_chats_answered srv tr auth_token Htok r (VDict data)
               Hr Hs Hb).
    unfold read_chats.
    assert (Hhas : py_contains "points" (VDict data) srv
                     (tr ++ [Http (chats_request auth_token)])
                   = (Ret true, tr ++ [Http (chats_request auth_token)])).
    { simpl. unfold dict_has. now rewrite Hp. }
    assert (Hget : py_getitem (VDict data) "points" srv
                     (tr ++ [Http (chats_request auth_token)])
                   = (Ret (VList points),
                      tr ++ [Http (chats_request auth_token)])).
    { simpl. now rewrite Hp. }
    erewrite bind_returns by exact Hhas. cbv beta iota.
    rewrite bind_bind. erewrite bind_returns by exact Hget. cbv beta.
    erewrite bind_returns by reflexivity. cbv beta.
    destruct points as [|p rest].
    + destruct chats; [reflexivity | discriminate].
    + change (truthy (VList (p :: rest))) with true. cbv iota.
      erewrite bind_returns by exact Hget. cbv beta.
      erewrite bind_returns by reflexivity. cbv beta.
      apply for_each_chats. exact Hchats.
  - clear Hp. revert chats Hchats.
    induction points as [|p rest IH]; intros chats Hchats;
      destruct chats as [|c chats]; try discriminate; constructor.
    + simpl in Hchats. inversion Hchats as [[Hc _]].
      unfold chat_of_point in Hc.
      destruct p as [| | | | |point]; try discriminate.
      destruct (dict_lookup "metadata" point)
        as [[| | | | |metadata]|] eqn:Em; try discriminate.
      destruct (dict_lookup "id" point) as [id|] eqn:Ei; try discriminate.
      inversion Hc; subst c. exists point, metadata. simpl.
      repeat split; try assumption.
      * intros Hn. now rewrite Hn.
      * intros name Hn. now rewrite Hn.
    + apply IH. simpl in Hchats. now inversion Hchats.
Qed.

(** ** Concrete runs *)

(** Presence alone does not decide (against C3 as the specification words
    it): an entry whose [text] field is present but empty contributes no
    user turn. *)
Lemma present_field_without_turn :
  dict_has "text" empty_text_entry = true
  /\ dict_has "bot" empty_text_entry = true
  /\ fst (get_chat_messages (VStr "token") (VStr "c1") empty_text_server [])
     = Ret ([mkTurn "assistant" (VStr "hello")],
            [Lit "History for: "; Str (VStr "Trip")])
  /\ fst (get_chat_messages (VStr "token") (VStr "c1") empty_text_server [])
     <> Ret (flat_map turns_if_present [empty_text_entry],
             [Lit "History for: "; Str (VStr "Trip")]).
Proof.
  repeat split; try reflexivity. vm_compute. discriminate.
Qed.

(** Ids are not checked (against C6 as the specification words it): the
    client keeps a chat whose id is the empty string. *)
Lemma chat_with_empty_id :
  exists chats,
    fst (get_chats (VStr "token") empty_id_server []) = Ret chats
    /\ ~ Forall (fun c : chat => snd c <> VStr "") chats.
Proof.
  exists [(VStr "Trip", VStr "")]. split; [reflexivity|].
  intros H. inversion H as [|c l Hc _]; subst. now apply Hc.
Qed.

(** C2.  A payload of the wrong shape makes both operations raise: a
    point without [metadata] ends [get_chats] in [KeyError], which none of
    its [except] clauses catches, and a JSON array in place of the object
    ends [get_chat_messages] in [AttributeError], which is not among the
    exceptions of its second clause. *)
Theorem shape_errors_escape :
  get_chats (VStr "token") misshapen_server []
  = (Raise (KeyError "metadata"), [Http (chats_request (VStr "token"))])
  /\ get_chat_messages (VStr "token") (VStr "c1") misshapen_server []
     = (Raise AttributeError,
        [Http (messages_request (VStr "token") (VStr "c1"))]).
Proof. split; reflexivity. Qed.

(** ** The theorems at work on the sample servers *)

Lemma send_then_reconcile_witness :
  handle_send_and_refresh (VStr "c1") "hey" (VStr "token") sample_server []
  = (Ret ([mkTurn "user" (VStr "hi"); mkTurn "assistant" (VStr "hello")], ""),
     [Http (message_request (VStr "token") (VStr "c1") "hey"); Sleep 1;
      Http (messages_request (VStr "token") (VStr "c1"))])
  /\ fst (handle_send_and_refresh (VStr "c1") "hey" (VStr "token")
            refusing_server [])
     = Ret ([mkTurn "user" (VStr "hi"); mkTurn "assistant" (VStr "hello")],
            "hey").
Proof.
  split.
  - destruct (send_then_reconcile sample_server [] (VStr "token")
                (VStr "c1") "hey" eq_refl eq_refl eq_refl) as [Hsent _].
    destruct (Hsent eq_refl) as [E _]. rewrite E. reflexivity.
  - destruct (send_then_reconcile refusing_server [] (VStr "token")
                (VStr "c1") "hey" eq_refl eq_refl eq_refl) as [_ Hfailed].
    destruct (Hfailed (HTTPError (mkResponse 500 (BodyText "busy"))) eq_refl)
      as [E _].
    rewrite E. reflexivity.
Defined.

Lemma blank_message_refetches_witness :
  fst (handle_send_and_refresh (VStr "c1") "  " (VStr "token")
         sample_server [])
  = Ret ([mkTurn "user" (VStr "hi"); mkTurn "assistant" (VStr "hello")], "  ")
  /\ http_requests
       (snd (handle_send_and_refresh (VStr "c1") "  " (VStr "token")
               sample_server []))
     = [messages_request (VStr "token") (VStr "c1")].
Proof.
  destruct (blank_message_refetches sample_server [] (VStr "token")
              (VStr "c1") "  " eq_refl eq_refl) as [E R].
  split.
  - rewrite E. reflexivity.
  - exact R.
Defined.

Lemma validation_makes_no_request_witness :
  rename_chat (VStr "token") (VStr "c1") "  " sample_server []
  = (Ret tt, warned [Lit "New name cannot be empty."])
  /\ rename_chat (VStr "token") VNone "Trip" sample_server []
     = (Ret tt, warned [Lit "Please select a chat to rename."])
  /\ send_message_and_get_reply (VStr "token") VNone "hey" sample_server []
     = (Ret None, warned [Lit "Cannot send message: no chat selected."])
  /\ login "" "secret" sample_server []
     = (Ret login_failed,
        [GrWarning [Lit "Username and Password are required."]])
  /\ login "alice" "" sample_server []
     = (Ret login_failed,
        [GrWarning [Lit "Username and Password are required."]]).
Proof.
  refine (conj _ (conj _ (conj _ (conj _ _)))).
  - apply (validation_makes_no_request sample_server [] (VStr "token")
             (VStr "c1") "  " "hey" "alice" "secret"); reflexivity.
  - apply (validation_makes_no_request sample_server [] (VStr "token")
             VNone "Trip" "hey" "alice" "secret"). reflexivity.
  - apply (validation_makes_no_request sample_server [] (VStr "token")
             VNone "Trip" "hey" "alice" "secret"). reflexivity.
  - apply (validation_makes_no_request sample_server [] (VStr "token")
             VNone "Trip" "hey" "" "secret"). now left.
  - apply (validation_makes_no_request sample_server [] (VStr "token")
             VNone "Trip" "hey" "alice" ""). now right.
Defined.

Lemma refresh_without_token_witness :
  refresh_and_update_components VNone sample_server []
  = (Ret (update_choices [], []), []).
Proof.
  apply (refresh_without_token sample_server [] VNone). reflexivity.
Defined.

Lemma delete_clears_selection_witness :
  handle_delete_chat (VStr "c1")
    [(VStr "Notes", VStr "c0"); (VStr "Trip", VStr "c1");
     (VStr "Later", VStr "c1")]
    (VStr "token") sample_server []
  = (Ret (update_choices_value
            [(VStr "Trip", VStr "c1"); (VStr "Unnamed Chat", VStr "c2")]
            VNone,
          Value [(VStr "Trip", VStr "c1"); (VStr "Unnamed Chat", VStr "c2")],
          Value VNone, Value []),
     [Http (delete_request (VStr "token") (VStr "c1"));
      LogInfo [Lit "Chat '"; Str (VStr "Trip"); Lit "' deleted."];
      GrSuccess [Lit "Chat '"; Str (VStr "Trip"); Lit "' deleted."];
      Http (chats_request (VStr "token"))])
  /\ handle_delete_chat (VStr "c9") [(VStr "Trip", VStr "c1")]
       (VStr "token") unreachable_server []
     = (Ret (update_choices_value [] VNone, Value [], Value VNone, Value []),
        Http (delete_request (VStr "token") (VStr "c9"))
        :: warned (api_error_message (RequestError None) "deleting chat")
        ++ [LogInfo [Lit "Chat '"; Str (VStr "c9"); Lit "' deleted."];
            GrSuccess [Lit "Chat '"; Str (VStr "c9"); Lit "' deleted."];
            Http (chats_request (VStr "token"))]
        ++ warned (api_error_message (RequestError None) "fetching chats")).
Proof.
  split.
  - destruct (delete_clears_selection sample_server [] (VStr "c1")
                [(VStr "Notes", VStr "c0"); (VStr "Trip", VStr "c1");
                 (VStr "Later", VStr "c1")]
                (VStr "token") eq_refl)
      as (_ & _ & Hfound & tr1 & Hdel & _ & E).
    rewrite E.
    rewrite (Hfound [(VStr "Notes", VStr "c0")] (VStr "Trip") (VStr "c1")
               [(VStr "Later", VStr "c1")] eq_refl).
    + injection Hdel as <-. reflexivity.
    + intros c [<-|[]]. reflexivity.
    + reflexivity.
  - destruct (delete_clears_selection unreachable_server [] (VStr "c9")
                [(VStr "Trip", VStr "c1")] (VStr "token") eq_refl)
      as (_ & Hmiss & _ & tr1 & Hdel & _ & E).
    rewrite E. rewrite Hmiss.
    + injection Hdel as <-. reflexivity.
    + intros c [<-|[]]. reflexivity.
Defined.

Lemma rename_then_refresh_witness :
  fst (handle_rename_chat (VStr "c1") "Journey" (VStr "token")
         sample_server [])
  = Ret (update_choices_value
           [(VStr "Trip", VStr "c1"); (VStr "Unnamed Chat", VStr "c2")] VNone,
         Value [(VStr "Trip", VStr "c1"); (VStr "Unnamed Chat", VStr "c2")],
         "").
Proof.
  destruct (rename_then_refresh sample_server [] (VStr "c1") "Journey"
              (VStr "token") eq_refl)
    as (tr1 & Hren & _ & E).
  rewrite E. injection Hren as <-. reflexivity.
Defined.

Lemma history_of_wellformed_response_witness :
  get_chat_messages (VStr "token") (VStr "c1") sample_server []
  = (Ret ([mkTurn "user" (VStr "hi"); mkTurn "assistant" (VStr "hello")],
          [Lit "History for: "; Str (VStr "Trip")]),
     [Http (messages_request (VStr "token") (VStr "c1"))]).
Proof.
  apply (history_of_wellformed_response sample_server [] (VStr "token")
           (VStr "c1") (mkResponse 200 (BodyJson sample_messages))
           [("Name", VStr "Trip");
            ("Messages",
             VDict [("points",
                     VList [VDict [("metadata",
                                    VDict [("text", VStr "hi");
                                           ("bot", VStr "hello")])]])])]
           [("points",
             VList [VDict [("metadata",
                            VDict [("text", VStr "hi");
                                   ("bot", VStr "hello")])]])]
           [VDict [("metadata",
                   VDict [("text", VStr "hi"); ("bot", VStr "hello")])]]
           [[("text", VStr "hi"); ("bot", VStr "hello")]]);
    reflexivity.
Defined.

Lemma chats_of_wellformed_response_witness :
  get_chats (VStr "token") sample_server []
  = (Ret [(VStr "Trip", VStr "c1"); (VStr "Unnamed Chat", VStr "c2")],
     [Http (chats_request (VStr "token"))]).
Proof.
  apply (chats_of_wellformed_response sample_server [] (VStr "token")
           (mkResponse 200 (BodyJson sample_chats))
           [("points",
             VList [VDict [("id", VStr "c1");
                           ("metadata", VDict [("name", VStr "Trip")])];
                    VDict [("id", VStr "c2"); ("metadata", VDict [])]])]
           [VDict [("id", VStr "c1");
                   ("metadata", VDict [("name", VStr "Trip")])];
            VDict [("id", VStr "c2"); ("metadata", VDict [])]]
           [(VStr "Trip", VStr "c1"); (VStr "Unnamed Chat", VStr "c2")]);
    reflexivity.
Defined.

(** * Further properties of the client *)

(** ** Looking a name up *)

(** The lookup returns the name of the first chat whose id equals the
    selected id, and [None] when no chat of the list has that id. *)
Theorem get_name_from_id_first_match (selected_id : value)
  (before after : list chat) (name id : value) (chat_list : list chat) :
  (forall c, In c before -> py_eq (snd c) selected_id = false) ->
  py_eq id selected_id = true ->
  (forall c, In c chat_list -> py_eq (snd c) selected_id = false) ->
  get_name_from_id selected_id (before ++ (name, id) :: after) = name
  /\ get_name_from_id selected_id chat_list = VNone.
Proof.
  intros Hbefore Hid Hnone. split.
  - induction before as [|[n i] before IH]; simpl.
    + now rewrite Hid.
    + pose proof (Hbefore (n, i) (or_introl eq_refl)) as E.
      simpl in E. rewrite E.
      apply IH. intros c Hc. apply Hbefore. now right.
  - induction chat_list as [|[n i] rest IH]; simpl.
    + reflexivity.
    + pose proof (Hnone (n, i) (or_introl eq_refl)) as E.
      simpl in E. rewrite E.
      apply IH. intros c Hc. apply Hnone. now right.
Qed.

(** ** Refreshing the list of chats *)

Section Refreshing.

Variables (srv : server) (tr : trace) (auth_token : value).

Lemma refresh_and_update_components_eq :
  truthy auth_token = true ->
  refresh_and_update_components auth_token srv tr
  = match get_chats auth_token srv tr with
    | (Ret chats, tr') =>
        (Ret (update_choices_value chats VNone, chats), tr')
    | (Raise e, tr') => (Raise e, tr')
    end.
Proof.
  intros H. unfold refresh_and_update_components. rewrite H. cbv [negb].
  unfold bind. now destruct (get_chats auth_token srv tr) as [[chats|e] tr'].
Qed.

Lemma refresh_and_update_components_run :
  truthy auth_token = true ->
  exists w,
    snd (refresh_and_update_components auth_token srv tr)
    = (tr ++ [Http (chats_request auth_token)]) ++ w
    /\ http_requests w = [] /\ sleeps w = [].
Proof.
  intros H. rewrite (refresh_and_update_components_eq H).
  destruct (get_chats_run srv tr auth_token H) as (w & Ht & Hw & Hs).
  exists w. repeat split; try assumption.
  now destruct (get_chats auth_token srv tr) as [[chats|e] tr'].
Qed.

End Refreshing.

(** Whenever the refresh returns, the choices it hands to the selector are
    the very list it hands to the state; with a token the selection is
    reset as well, and without one the list is empty and nothing was
    recorded. *)
Theorem refresh_keeps_selector_in_sync (srv : server) (tr tr' : trace)
  (auth_token : value) (choices : gr_update) (chat_list : list chat) :
  refresh_and_update_components auth_token srv tr
  = (Ret (choices, chat_list), tr') ->
  upd_choices choices = Some chat_list
  /\ upd_visible choices = None
  /\ (truthy auth_token = true -> upd_value choices = Some VNone)
  /\ (truthy auth_token = false ->
      upd_value choices = None /\ chat_list = [] /\ tr' = tr).
Proof.
  intros H. destruct (truthy auth_token) eqn:Htok.
  - rewrite (refresh_and_update_components_eq srv tr auth_token Htok) in H.
    destruct (get_chats auth_token srv tr) as [[chats|e] tr''];
      inversion H; subst.
    repeat split; discriminate.
  - unfold refresh_and_update_components in H. rewrite Htok in H.
    inversion H; subst. repeat split; discriminate.
Qed.

(** With a token the refresh makes exactly one request, the list-chats
    call; when that call fails the chat list comes back empty. *)
Theorem refresh_makes_one_request (srv : server) (tr : trace)
  (auth_token : value) :
  truthy auth_token = true ->
  http_requests (snd (refresh_and_update_components auth_token srv tr))
  = http_requests tr ++ [chats_request auth_token]
  /\ forall e,
       call_failure (srv tr (chats_request auth_token)) = Some e ->
       fst (refresh_and_update_components auth_token srv tr)
       = Ret (update_choices_value [] VNone, []).
Proof.
  intros H. split.
  - destruct (refresh_and_update_components_run srv tr auth_token H)
      as (w & Ht & Hw & _).
    rewrite Ht, !http_requests_app, Hw. simpl. now rewrite app_nil_r.
  - intros e F. rewrite (refresh_and_update_components_eq srv tr _ H).
    now rewrite (get_chats_failed srv tr auth_token H e F).
Qed.

(** ** Fallbacks of the two fetches *)

(** [get_chats] degrades to the empty list: without a token, when the call
    fails (transport error or error status), and when the body is not
    JSON.  Each time the failure is logged and shown once, and nothing is
    raised. *)
Theorem get_chats_degrades_to_empty (srv : server) (tr : trace)
  (auth_token : value) :
  let req := chats_request auth_token in
  (truthy auth_token = false ->
   get_chats auth_token srv tr
   = (Ret [],
      tr ++ warned (api_error_message
                      (ValueError "Authentication token is missing.")
                      "fetching chats")))
  /\ (truthy auth_token = true ->
      (forall e,
         call_failure (srv tr req) = Some e ->
         get_chats auth_token srv tr
         = (Ret [],
            tr ++ Http req :: warned (api_error_message e "fetching chats")))
      /\ (forall r text,
            srv tr req = Answers r -> is_error_status r = false ->
            resp_body r = BodyText text ->
            get_chats auth_token srv tr
            = (Ret [],
               tr ++ Http req
                  :: warned (api_error_message JSONDecodeError
                               "fetching chats")))).
Proof.
  intros req. split; [apply get_chats_no_token|].
  intros Htok. split.
  - intros e F. rewrite (get_chats_failed srv tr auth_token Htok e F).
    now rewrite <- app_assoc.
  - intros r text Hr Hs Hb.
    rewrite (get_chats_undecodable srv tr auth_token Htok r text Hr Hs Hb).
    now rewrite <- app_assoc.
Qed.

(** A payload without [points], or whose [points] holds a false value
    (null, an empty list, ...), is an empty list of chats: no warning, no
    exception. *)
Theorem get_chats_without_points (srv : server) (tr : trace)
  (auth_token : value) (r : response) (data : list (string * value)) :
  truthy auth_token = true ->
  srv tr (chats_request auth_token) = Answers r ->
  is_error_status r = false ->
  resp_body r = BodyJson (VDict data) ->
  match dict_lookup "points" data with
  | Some points => truthy points = false
  | None => True
  end ->
  get_chats auth_token srv tr
  = (Ret [], tr ++ [Http (chats_request auth_token)]).
Proof.
  intros Htok Hr Hs Hb Hp.
  rewrite (get_chats_answered srv tr auth_token Htok r (VDict data) Hr Hs Hb).
  unfold read_chats, bind. simpl. unfold dict_has.
  destruct (dict_lookup "points" data) as [points|]; simpl.
  - now rewrite Hp.
  - reflexivity.
Qed.

(** [get_chat_messages] degrades to the empty history under the label
    "Error loading messages": without a token, when the call fails, and
    when the body is not JSON. *)
Theorem get_chat_messages_degrades_to_empty (srv : server) (tr : trace)
  (auth_token chat_id : value) :
  truthy chat_id = true ->
  let req := messages_request auth_token chat_id in
  (truthy auth_token = false ->
   get_chat_messages auth_token chat_id srv tr
   = (Ret ([], [Lit "Error loading messages"]),
      tr ++ warned (api_error_message
                      (ValueError "Authentication token is missing.")
                      "fetching messages")))
  /\ (truthy auth_token = true ->
      (forall e,
         call_failure (srv tr req) = Some e ->
         get_chat_messages auth_token chat_id srv tr
         = (Ret ([], [Lit "Error loading messages"]),
            tr ++ Http req
               :: warned (api_error_message e "fetching messages")))
      /\ (forall r text,
            srv tr req = Answers r -> is_error_status r = false ->
            resp_body r = BodyText text ->
            get_chat_messages auth_token chat_id srv tr
            = (Ret ([], [Lit "Error loading messages"]),
               tr ++ Http req
                  :: warned (api_error_message JSONDecodeError
                               "fetching messages")))).
Proof.
  intros Hid req. split; [now apply get_chat_messages_no_token|].
  intros Htok. split.
  - intros e F.
    rewrite (get_chat_messages_failed srv tr auth_token chat_id Hid Htok e F).
    now rewrite <- app_assoc.
  - intros r text Hr Hs Hb.
    rewrite (get_chat_messages_undecodable srv tr auth_token chat_id Hid Htok
               r text Hr Hs Hb).
    now rewrite <- app_assoc.
Qed.

(** A payload whose [points] is null, a boolean or a number cannot be
    iterated: the [TypeError] is caught, reported, and the result is the
    empty history under the label "Could not parse message response". *)
Theorem get_chat_messages_unreadable_points (srv : server) (tr : trace)
  (auth_token chat_id : value) (r : response)
  (data container : list (string * value)) (points : value) :
  truthy auth_token = true ->
  truthy chat_id = true ->
  srv tr (messages_request auth_token chat_id) = Answers r ->
  is_error_status r = false ->
  resp_body r = BodyJson (VDict data) ->
  dict_lookup "Messages" data = Some (VDict container) ->
  dict_lookup "points" container = Some points ->
  match points with
  | VNone | VBool _ | VInt _ => True
  | _ => False
  end ->
  get_chat_messages auth_token chat_id srv tr
  = (Ret ([], [Lit "Could not parse message response"]),
     tr ++ Http (messages_request auth_token chat_id)
        :: warned [Lit "Error parsing response: "; StrExn TypeError]).
Proof.
  intros Htok Hid Hr Hs Hb Hm Hp Hshape.
  rewrite (get_chat_messages_answered srv tr auth_token chat_id Hid Htok
             r (VDict data) Hr Hs Hb).
  unfold read_messages, bind. simpl.
  destruct (dict_lookup "Name" data); rewrite Hm; simpl; rewrite Hp;
    destruct points; try contradiction; simpl; now rewrite <- app_assoc.
Qed.

(** A payload without [Messages], or whose [Messages] has no [points], is
    an empty history under the usual label: the defaults of the two
    [.get] calls apply, and nothing is reported. *)
Theorem get_chat_messages_defaults (srv : server) (tr : trace)
  (auth_token chat_id : value) (r : response)
  (data : list (string * value)) :
  truthy auth_token = true ->
  truthy chat_id = true ->
  srv tr (messages_request auth_token chat_id) = Answers r ->
  is_error_status r = false ->
  resp_body r = BodyJson (VDict data) ->
  match dict_lookup "Messages" data with
  | None => True
  | Some (VDict container) => dict_lookup "points" container = None
  | Some _ => False
  end ->
  get_chat_messages auth_token chat_id srv tr
  = (Ret ([],
          [Lit "History for: ";
           Str (match dict_lookup "Name" data with
                | Some name => name
                | None => VStr "Current Chat"
                end)]),
     tr ++ [Http (messages_request auth_token chat_id)]).
Proof.
  intros Htok Hid Hr Hs Hb Hm.
  rewrite (get_chat_messages_answered srv tr auth_token chat_id Hid Htok
             r (VDict data) Hr Hs Hb).
  unfold read_messages, bind. simpl.
  destruct (dict_lookup "Name" data);
    destruct (dict_lookup "Messages" data) as [[| | | | |container]|];
    try contradiction; simpl; rewrite ?Hm; reflexivity.
Qed.

(** Whatever the server does, [get_chat_messages] makes at most one
    request (none without a chat id or without a token), never sleeps,
    and the only exception that can leave it is [AttributeError]. *)
Theorem get_chat_messages_footprint (srv : server) (tr : trace)
  (auth_token chat_id : value) :
  http_requests (snd (get_chat_messages auth_token chat_id srv tr))
  = http_requests tr
    ++ (if truthy chat_id && truthy auth_token
        then [messages_request auth_token chat_id]
        else [])
  /\ sleeps (snd (get_chat_messages auth_token chat_id srv tr)) = sleeps tr
  /\ forall e,
       fst (get_chat_messages auth_token chat_id srv tr) = Raise e ->
       e = AttributeError.
Proof.
  destruct (truthy chat_id) eqn:Hid.
  - destruct (truthy auth_token) eqn:Htok.
    + destruct (get_chat_messages_run srv tr auth_token chat_id Hid Htok)
        as (w & Ht & Hw & Hs & He).
      rewrite Ht, !http_requests_app, !sleeps_app, Hw, Hs. simpl.
      rewrite !app_nil_r. repeat split. exact He.
    + rewrite (get_chat_messages_no_token srv tr auth_token chat_id Hid Htok).
      simpl. rewrite http_requests_app, sleeps_app. simpl.
      rewrite !app_nil_r. repeat split. discriminate.
  - unfold get_chat_messages. rewrite Hid. simpl.
    rewrite app_nil_r. repeat split. discriminate.
Qed.

(** ** Creating a chat *)

Lemma create_chat_run (srv : server) (tr : trace) (auth_token : value)
  (chat_name : string) :
  let req := create_request auth_token chat_name in
  let created :=
    [Lit "Chat '"; Lit chat_name; Lit "' created successfully!"] in
  create_chat auth_token chat_name srv tr
  = (Ret tt,
     tr ++ (if truthy auth_token
            then Http req
                 :: match call_failure (srv tr req) with
                    | None => [LogInfo created; GrSuccess created]
                    | Some e => warned (api_error_message e "creating chat")
                    end
            else warned (api_error_message
                           (ValueError "Authentication token is missing.")
                           "creating chat"))).
Proof.
  intros req created. unfold create_chat.
  destruct (truthy auth_token) eqn:Htok.
  - destruct (call_outcome (srv tr req))
      as [(r & Hr & Hs & F) | [(resp & Hr & F) | (r & Hr & Hs & F)]];
      rewrite F.
    + erewrite try_returns; [reflexivity|].
      do 3 step. rewrite log_and_success_run. now rewrite <- app_assoc.
    + erewrite try_catches; [| step; step; reflexivity | reflexivity].
      rewrite handle_api_error_run. now rewrite <- app_assoc.
    + erewrite try_catches;
        [| step; step; step; reflexivity | reflexivity].
      rewrite handle_api_error_run. now rewrite <- app_assoc.
  - erewrite try_catches; [| step; reflexivity | reflexivity].
    apply handle_api_error_run.
Qed.

(** [create_chat] never raises and never checks the name: with a token it
    sends the one create request for any name, blank or not, carrying the
    name as typed in both [name] and [content]; the success toast appears
    exactly when the call succeeded. *)
Theorem create_chat_sends_any_name (srv : server) (tr : trace)
  (auth_token : value) (chat_name : string) :
  truthy auth_token = true ->
  let req := create_request auth_token chat_name in
  let created :=
    [Lit "Chat '"; Lit chat_name; Lit "' created successfully!"] in
  exists tr1,
    create_chat auth_token chat_name srv tr = (Ret tt, tr1)
    /\ http_requests tr1 = http_requests tr ++ [req]
    /\ (call_failure (srv tr req) = None ->
        tr1 = tr ++ [Http req; LogInfo created; GrSuccess created])
    /\ (forall e, call_failure (srv tr req) = Some e ->
                  tr1 = tr ++ Http req
                           :: warned (api_error_message e "creating chat")).
Proof.
  intros Htok req created. eexists. split.
  - apply create_chat_run.
  - rewrite Htok. fold req. repeat split.
    + rewrite http_requests_app. simpl.
      now destruct (call_failure (srv tr req)).
    + intros F. now rewrite F.
    + intros e F. now rewrite F.
Qed.

(** The create handler always makes the same two requests, the create and
    then the list refresh, whether or not the create succeeded; whenever it
    returns, the name field is cleared and the selector choices are the
    refreshed list, with no chat selected. *)
Theorem handle_create_chat_requests (srv : server) (tr : trace)
  (name : string) (auth_token : value) :
  truthy auth_token = true ->
  http_requests (snd (handle_create_chat name auth_token srv tr))
  = http_requests tr
    ++ [create_request auth_token name; chats_request auth_token]
  /\ forall choices chat_list field tr',
       handle_create_chat name auth_token srv tr
       = (Ret (choices, chat_list, field), tr') ->
       field = ""
       /\ upd_choices choices = Some chat_list
       /\ upd_value choices = Some VNone.
Proof.
  intros Htok.
  pose proof (create_chat_run srv tr auth_token name) as Hc.
  cbv zeta in Hc. rewrite Htok in Hc.
  set (tr1 := tr ++ _) in Hc.
  assert (E : handle_create_chat name auth_token srv tr
              = match refresh_and_update_components auth_token srv tr1 with
                | (Ret (choices, chat_list), tr') =>
                    (Ret (choices, chat_list, ""), tr')
                | (Raise e, tr') => (Raise e, tr')
                end).
  { unfold handle_create_chat. erewrite bind_returns by exact Hc.
    unfold bind.
    now destruct (refresh_and_update_components auth_token srv tr1)
      as [[[choices chat_list]|e] tr']. }
  split.
  - rewrite E.
    destruct (refresh_and_update_components_run srv tr1 auth_token Htok)
      as (w & Ht & Hw & _).
    assert (Hreq : http_requests tr1
                   = http_requests tr ++ [create_request auth_token name]).
    { unfold tr1. rewrite http_requests_app. simpl.
      now destruct (call_failure _). }
    destruct (refresh_and_update_components auth_token srv tr1)
      as [[[choices chat_list]|e] tr']; simpl in *; subst tr';
      rewrite !http_requests_app, Hw, Hreq; simpl;
      now rewrite app_nil_r, <- app_assoc.
  - intros choices chat_list field tr' H. rewrite E in H.
    destruct (refresh_and_update_components auth_token srv tr1)
      as [[[choices' chat_list']|e] tr''] eqn:R; inversion H; subst.
    rewrite (refresh_and_update_components_eq srv tr1 auth_token Htok) in R.
    destruct (get_chats auth_token srv tr1) as [[chats|e] tr3];
      inversion R; subst. now repeat split.
Qed.

(** ** Selecting a chat *)

(** Clearing the selection empties the history without any request.
    Choosing a chat makes it the selection whatever becomes of the fetch:
    when the call fails the chat is selected with an empty history. *)
Theorem on_chat_select_keeps_choice (srv : server) (tr : trace)
  (selected_id auth_token : value) :
  (truthy selected_id = false ->
   on_chat_select selected_id auth_token srv tr = (Ret ([], VNone), tr))
  /\ (truthy selected_id = true ->
      (forall history selection tr',
         on_chat_select selected_id auth_token srv tr
         = (Ret (history, selection), tr') ->
         selection = selected_id)
      /\ (truthy auth_token = true ->
          forall e,
            call_failure (srv tr (messages_request auth_token selected_id))
            = Some e ->
            fst (on_chat_select selected_id auth_token srv tr)
            = Ret ([], selected_id))).
Proof.
  split.
  - intros H. unfold on_chat_select. now rewrite H.
  - intros Hid. unfold on_chat_select. rewrite Hid. split.
    + intros history selection tr' H. unfold bind in H.
      destruct (get_chat_messages auth_token selected_id srv tr)
        as [[[h label]|e] tr'']; now inversion H.
    + intros Htok e F. unfold bind.
      now rewrite (get_chat_messages_failed srv tr auth_token selected_id
                     Hid Htok e F).
Qed.

(** ** Deleting *)

(** Without a chat id nothing is deleted: [delete_chat] and the delete
    handler return after their warning without any request, and the
    handler leaves all four of its outputs as they are. *)
Theorem delete_without_selection (srv : server) (tr : trace)
  (selected_id : value) (chat_list_data : list chat) (auth_token : value) :
  truthy selected_id = false ->
  delete_chat auth_token selected_id srv tr
  = (Ret tt, tr ++ warned [Lit "Please select a chat to delete."])
  /\ handle_delete_chat selected_id chat_list_data auth_token srv tr
     = (Ret (no_change, Update no_change, Update no_change,
             Update no_change),
        tr ++ warned [Lit "No chat selected to delete."]).
Proof.
  intros H. split.
  - unfold delete_chat. rewrite H. apply log_and_warn_run.
  - unfold handle_delete_chat. rewrite H. now step.
Qed.

(** The delete handler does not look at the outcome of the delete: when
    the call fails, the failure warning is followed by the success toast
    "Chat '...' deleted." all the same, and then by the list refresh. *)
Theorem delete_reports_success_after_failure (srv : server) (tr : trace)
  (selected_id : value) (chat_list_data : list chat) (auth_token : value)
  (e : exn) :
  truthy selected_id = true ->
  truthy auth_token = true ->
  call_failure (srv tr (delete_request auth_token selected_id)) = Some e ->
  let done :=
    [Lit "Chat '";
     Str (py_or (get_name_from_id selected_id chat_list_data) selected_id);
     Lit "' deleted."] in
  exists w,
    snd (handle_delete_chat selected_id chat_list_data auth_token srv tr)
    = tr ++ Http (delete_request auth_token selected_id)
         :: warned (api_error_message e "deleting chat")
         ++ [LogInfo done; GrSuccess done;
             Http (chats_request auth_token)] ++ w
    /\ http_requests w = [].
Proof.
  intros Hid Htok F done.
  assert (Hdel : delete_chat auth_token selected_id srv tr
                 = (Ret tt,
                    (tr ++ [Http (delete_request auth_token selected_id)])
                    ++ warned (api_error_message e "deleting chat"))).
  { unfold delete_chat. rewrite Hid. cbv [negb].
    destruct (call_outcome
                (srv tr (delete_request auth_token selected_id)))
      as [(r & Hr & Hs & F') | [(resp & Hr & F') | (r & Hr & Hs & F')]];
      rewrite F' in F; inversion F; subst e.
    - erewrite try_catches; [| step; step; reflexivity | reflexivity].
      apply handle_api_error_run.
    - erewrite try_catches;
        [| step; step; now apply raise_for_status_error | reflexivity].
      apply handle_api_error_run. }
  unfold handle_delete_chat. rewrite Hid. fold done.
  erewrite bind_returns by exact Hdel. cbv beta. step.
  match goal with
  | |- context [bind (refresh_and_update_components _) _ _ ?t] =>
      destruct (refresh_and_update_components_run srv t auth_token Htok)
        as (w & Ht & Hw & _);
      unfold bind;
      destruct (refresh_and_update_components auth_token srv t)
        as [[[choices chat_list]|e'] tr']
  end; simpl in Ht; subst tr'; exists w; simpl;
    (split; [| exact Hw]); rewrite <- !app_assoc; reflexivity.
Qed.

(** ** The requests of the handlers *)

(** With a token, a selected chat and a text that is not blank, the send
    handler makes the same two requests whatever the server answers: the
    send, then the fetch of the history. *)
Theorem send_makes_two_requests (srv : server) (tr : trace)
  (auth_token selected_chat_id : value) (text : string) :
  truthy auth_token = true ->
  truthy selected_chat_id = true ->
  all_space text = false ->
  http_requests
    (snd (handle_send_and_refresh selected_chat_id text auth_token srv tr))
  = http_requests tr
    ++ [message_request auth_token selected_chat_id text;
        messages_request auth_token selected_chat_id].
Proof.
  intros Htok Hid Htext.
  set (req := message_request auth_token selected_chat_id text).
  unfold handle_send_and_refresh. rewrite Hid. cbv [negb].
  unfold bind at 1.
  destruct (call_failure (srv tr req)) as [e|] eqn:F.
  - rewrite (send_message_and_get_reply_failed srv tr auth_token
               selected_chat_id text Htok Hid Htext e F).
    fold req.
    match goal with
    | |- context [bind (get_chat_messages _ _) _ _ ?t] =>
        destruct (get_chat_messages_run srv t auth_token selected_chat_id
                    Hid Htok) as (w & Ht & Hw & _);
        unfold bind;
        destruct (get_chat_messages auth_token selected_chat_id srv t)
          as [[[history label]|e'] tr']
    end; simpl in *; subst tr';
      rewrite !http_requests_app, Hw; simpl;
      now rewrite app_nil_r, <- app_assoc.
  - rewrite (send_message_and_get_reply_sent srv tr auth_token
               selected_chat_id text Htok Hid Htext F).
    fold req.
    destruct (get_chat_messages_run srv (tr ++ [Http req; Sleep 1])
                auth_token selected_chat_id Hid Htok)
      as (w & Ht & Hw & _).
    destruct (get_chat_messages auth_token selected_chat_id srv
                (tr ++ [Http req; Sleep 1]))
      as [[[history label]|e'] tr']; simpl in *; subst tr';
      rewrite !http_requests_app, Hw; simpl;
      now rewrite app_nil_r, <- app_assoc.
Qed.

(** Without a token the send handler reaches no server: the missing token
    is reported once for the send and once for the fetch, the history
    comes back empty, and the typed text is kept. *)
Theorem send_without_token (srv : server) (tr : trace)
  (auth_token selected_chat_id : value) (text : string) :
  truthy auth_token = false ->
  truthy selected_chat_id = true ->
  all_space text = false ->
  let missing := ValueError "Authentication token is missing." in
  handle_send_and_refresh selected_chat_id text auth_token srv tr
  = (Ret ([], text),
     tr ++ warned (api_error_message missing "sending message")
        ++ warned (api_error_message missing "fetching messages")).
Proof.
  intros Htok Hid Htext missing.
  unfold handle_send_and_refresh. rewrite Hid. cbv [negb].
  assert (Hsend : send_message_and_get_reply auth_token selected_chat_id text
                    srv tr
                  = (Ret None,
                     tr ++ warned (api_error_message missing
                                     "sending message"))).
  { rewrite send_message_and_get_reply_eq by assumption.
    erewrite try_catches; [| step; reflexivity | reflexivity].
    now step. }
  erewrite bind_returns by exact Hsend. cbv beta iota.
  erewrite bind_returns
    by (apply get_chat_messages_no_token; assumption).
  now rewrite <- app_assoc.
Qed.

(** With a token and a selected chat the rename handler always ends with
    the list refresh.  A blank name is rejected by [rename_chat], yet the
    list is still fetched and the field is still cleared; otherwise the
    rename request comes first. *)
Theorem handle_rename_chat_requests (srv : server) (tr : trace)
  (selected_id : value) (new_name : string) (auth_token : value) :
  truthy selected_id = true ->
  truthy auth_token = true ->
  http_requests
    (snd (handle_rename_chat selected_id new_name auth_token srv tr))
  = http_requests tr
    ++ (if all_space new_name
        then [chats_request auth_token]
        else [rename_request auth_token selected_id new_name;
              chats_request auth_token])
  /\ forall choices chat_list field tr',
       handle_rename_chat selected_id new_name auth_token srv tr
       = (Ret (choices, chat_list, field), tr') ->
       field = "".
Proof.
  intros Hid Htok.
  destruct (rename_chat_run srv tr auth_token selected_id Hid new_name)
    as (tr1 & Hren & Hreq).
  assert (Hreq1 : http_requests tr1
                  = http_requests tr
                    ++ (if all_space new_name then []
                        else [rename_request auth_token selected_id
                                new_name])).
  { destruct (all_space new_name) eqn:Hname.
    - unfold rename_chat in Hren.
      rewrite Hid, blank_all_space, Hname in Hren. cbv [negb] in Hren.
      rewrite log_and_warn_run in Hren. inversion Hren; subst tr1.
      rewrite http_requests_app. reflexivity.
    - now apply Hreq. }
  unfold handle_rename_chat. rewrite Hid. cbv [negb].
  erewrite bind_returns by exact Hren. cbv beta.
  destruct (refresh_and_update_components_run srv tr1 auth_token Htok)
    as (w & Ht & Hw & _).
  unfold bind.
  destruct (refresh_and_update_components auth_token srv tr1)
    as [[[choices chat_list]|e] tr']; simpl in Ht; subst tr'; simpl; split;
    try (intros ? ? ? ? H; now inversion H);
    rewrite !http_requests_app, Hw, Hreq1; simpl;
    destruct (all_space new_name); simpl;
    now rewrite ?app_nil_r, <- ?app_assoc.
Qed.

(** With a token and a selected chat the delete handler makes the same two
    requests whatever the server answers: the delete, then the list
    refresh. *)
Theorem handle_delete_chat_requests (srv : server) (tr : trace)
  (selected_id : value) (chat_list_data : list chat) (auth_token : value) :
  truthy selected_id = true ->
  truthy auth_token = true ->
  http_requests
    (snd (handle_delete_chat selected_id chat_list_data auth_token srv tr))
  = http_requests tr
    ++ [delete_request auth_token selected_id; chats_request auth_token].
Proof.
  intros Hid Htok.
  destruct (delete_chat_run srv tr auth_token selected_id Hid)
    as (tr1 & Hdel & Hreq).
  specialize (Hreq Htok).
  unfold handle_delete_chat. rewrite Hid.
  erewrite bind_returns by exact Hdel. cbv beta. step.
  match goal with
  | |- context [bind (refresh_and_update_components _) _ _ ?t] =>
      destruct (refresh_and_update_components_run srv t auth_token Htok)
        as (w & Ht & Hw & _);
      unfold bind;
      destruct (refresh_and_update_components auth_token srv t)
        as [[[choices chat_list]|e'] tr']
  end; simpl in Ht; subst tr'; simpl;
    rewrite !http_requests_app, Hw, Hreq; simpl;
    now rewrite ?app_nil_r, <- ?app_assoc.
Qed.

(** ** Logging in *)

Lemma get_chats_raises_shape (srv : server) (tr : trace)
  (auth_token : value) (e : exn) :
  fst (get_chats auth_token srv tr) = Raise e -> shape_error e = true.
Proof.
  destruct (truthy auth_token) eqn:Htok.
  - destruct (call_outcome (srv tr (chats_request auth_token)))
      as [(r & Hr & Hs & F) | [(resp & Hr & F) | (r & Hr & Hs & F)]].
    + destruct (resp_body r) as [data|text] eqn:Hb.
      * rewrite (get_chats_answered srv tr auth_token Htok r data Hr Hs Hb).
        apply inspects_read_chats.
      * rewrite (get_chats_undecodable srv tr auth_token Htok r text
                   Hr Hs Hb).
        discriminate.
    + rewrite (get_chats_failed srv tr auth_token Htok _ F). discriminate.
    + rewrite (get_chats_failed srv tr auth_token Htok _ F). discriminate.
  - rewrite (get_chats_no_token srv tr auth_token Htok). discriminate.
Qed.

Lemma login_eq (username password : string) :
  username <> "" -> password <> "" ->
  login username password
  = try_except
      (response <-
         requests_post API_ENDPOINTS.token ContentTypeOnly []
           (Some (VDict [("username", VStr username);
                         ("password", VStr password)])) ;;
       raise_for_status response ;;
       token_data <- response_json response ;;
       auth_token <- py_get token_data "access_token" VNone ;;
       if negb (truthy auth_token)
       then emit (GrWarning [Lit "Login failed: No token received."]) ;;
            ret login_failed
       else
         log_and_success [Lit "Login successful."] ;;
         '(chat_choices, chat_list) <-
           refresh_and_update_components auth_token ;;
         ret (update_visible false, update_visible true, auth_token,
              chat_list, chat_choices))
      (fun e =>
         match e with
         | HTTPError r =>
             Some ((if Z.eqb (status_code r) 401
                    then emit (GrWarning [Lit "Invalid username or password."])
                    else handle_api_error e "authentication") ;;
                   ret login_failed)
         | _ =>
             if is_RequestException e
             then Some (handle_api_error e "authentication" ;;
                        ret login_failed)
             else None
         end).
Proof.
  intros Hu Hp. unfold login.
  apply String.eqb_neq in Hu. apply String.eqb_neq in Hp.
  now rewrite Hu, Hp.
Qed.

Section Login.

Variables (srv : server) (tr : trace) (username password : string).
Hypothesis has_username : username <> "".
Hypothesis has_password : password <> "".

Let req := token_request username password.

(** The call ended in [e]: a 401 gets the toast about the credentials,
    anything else the general error report. *)
Lemma login_failed_call (e : exn) :
  call_failure (srv tr req) = Some e ->
  login username password srv tr
  = (Ret login_failed,
     tr ++ Http req
        :: match e with
           | HTTPError r =>
               if Z.eqb (status_code r) 401
               then [GrWarning [Lit "Invalid username or password."]]
               else warned (api_error_message e "authentication")
           | _ => warned (api_error_message e "authentication")
           end).
Proof.
  intros F. rewrite login_eq by assumption.
  destruct (call_outcome (srv tr req))
    as [(r & Hr & Hs & F') | [(resp & Hr & F') | (r & Hr & Hs & F')]];
    rewrite F' in F; inversion F; subst e.
  - erewrite try_catches; [| step; reflexivity | reflexivity].
    step. now rewrite <- app_assoc.
  - erewrite try_catches; [| step; step; reflexivity | reflexivity].
    destruct (Z.eqb (status_code r) 401).
    + erewrite bind_returns by (unfold emit; reflexivity).
      unfold ret. now rewrite <- app_assoc.
    + step. now rewrite <- app_assoc.
Qed.

Lemma login_undecodable (r : response) (text : string) :
  srv tr req = Answers r -> is_error_status r = false ->
  resp_body r = BodyText text ->
  login username password srv tr
  = (Ret login_failed,
     tr ++ Http req
        :: warned (api_error_message JSONDecodeError "authentication")).
Proof.
  intros Hr Hs Hb. rewrite login_eq by assumption.
  erewrite try_catches; [| step; step; step; reflexivity | reflexivity].
  step. now rewrite <- app_assoc.
Qed.

Lemma login_not_an_object (r : response) (data : value) :
  srv tr req = Answers r -> is_error_status r = false ->
  resp_body r = BodyJson data ->
  match data with VDict _ => False | _ => True end ->
  login username password srv tr = (Raise AttributeError, tr ++ [Http req]).
Proof.
  intros Hr Hs Hb Hshape. rewrite login_eq by assumption.
  erewrite try_passes; [reflexivity | | reflexivity].
  do 3 step. destruct data; try contradiction; reflexivity.
Qed.

Lemma login_answered (r : response) (data : list (string * value)) :
  srv tr req = Answers r -> is_error_status r = false ->
  resp_body r = BodyJson (VDict data) ->
  let auth_token :=
    match dict_lookup "access_token" data with
    | Some v => v
    | None => VNone
    end in
  login username password srv tr
  = if truthy auth_token
    then
      match refresh_and_update_components auth_token srv
              (tr ++ [Http req; LogInfo [Lit "Login successful."];
                      GrSuccess [Lit "Login successful."]]) with
      | (Ret (chat_choices, chat_list), tr') =>
          (Ret (update_visible false, update_visible true, auth_token,
                chat_list, chat_choices), tr')
      | (Raise e, tr') => (Raise e, tr')
      end
    else
      (Ret login_failed,
       tr ++ [Http req; GrWarning [Lit "Login failed: No token received."]]).
Proof.
  intros Hr Hs Hb auth_token. rewrite login_eq by assumption.
  unfold try_except. do 3 step.
  assert (G : py_get (VDict data) "access_token" VNone srv (tr ++ [Http req])
              = (Ret auth_token, tr ++ [Http req])).
  { unfold auth_token. simpl.
    now destruct (dict_lookup "access_token" data). }
  erewrite bind_returns by exact G. cbv beta.
  destruct (truthy auth_token) eqn:Htok; cbv [negb].
  - step. rewrite <- app_assoc. simpl app.
    pose proof (get_chats_raises_shape srv
                  (tr ++ [Http req; LogInfo [Lit "Login successful."];
                          GrSuccess [Lit "Login successful."]])
                  auth_token) as Hshape.
    rewrite refresh_and_update_components_eq by exact Htok.
    unfold bind.
    rewrite refresh_and_update_components_eq by exact Htok.
    destruct (get_chats auth_token srv _) as [[chats|e] tr'].
    + reflexivity.
    + specialize (Hshape e eq_refl). destruct e; try discriminate;
        reflexivity.
  - erewrite bind_returns by (unfold emit; reflexivity).
    unfold ret. now rewrite <- app_assoc.
Qed.

End Login.

(** Refused credentials: on a 401 the login shows "Invalid username or
    password." only, without a log line, stays on the login view with no
    token, and has made the one request. *)
Theorem login_unauthorized (srv : server) (tr : trace)
  (username password : string) (r : response) :
  username <> "" -> password <> "" ->
  srv tr (token_request username password) = Answers r ->
  status_code r = 401%Z ->
  login username password srv tr
  = (Ret login_failed,
     tr ++ [Http (token_request username password);
            GrWarning [Lit "Invalid username or password."]]).
Proof.
  intros Hu Hp Hr Hs.
  rewrite (login_failed_call srv tr username password Hu Hp (HTTPError r)).
  - now rewrite Hs.
  - rewrite Hr. unfold call_failure, is_error_status. now rewrite Hs.
Qed.

(** An answer without a usable token: when the JSON object of a good
    response has no [access_token], or a false one (null, empty), the
    login warns "Login failed: No token received." and stays on the login
    view; the list of chats is not requested. *)
Theorem login_without_token_in_answer (srv : server) (tr : trace)
  (username password : string) (r : response)
  (data : list (string * value)) :
  username <> "" -> password <> "" ->
  srv tr (token_request username password) = Answers r ->
  is_error_status r = false ->
  resp_body r = BodyJson (VDict data) ->
  match dict_lookup "access_token" data with
  | Some v => truthy v = false
  | None => True
  end ->
  login username password srv tr
  = (Ret login_failed,
     tr ++ [Http (token_request username password);
            GrWarning [Lit "Login failed: No token received."]]).
Proof.
  intros Hu Hp Hr Hs Hb Ht.
  rewrite (login_answered srv tr username password Hu Hp r data Hr Hs Hb).
  destruct (dict_lookup "access_token" data) as [v|].
  - now rewrite Ht.
  - reflexivity.
Qed.

(** A successful login: the token of the answer becomes the session
    token, the main view replaces the login view, and the chats are
    fetched with that very token straight away, so that the run consists
    of the token request and the list-chats request.  A failure of the
    list-chats call does not undo the login: the user is logged in with
    an empty list. *)
Theorem login_success (srv : server) (tr : trace)
  (username password : string) (r : response)
  (data : list (string * value)) (auth_token : value) :
  username <> "" -> password <> "" ->
  srv tr (token_request username password) = Answers r ->
  is_error_status r = false ->
  resp_body r = BodyJson (VDict data) ->
  dict_lookup "access_token" data = Some auth_token ->
  truthy auth_token = true ->
  let tr1 :=
    tr ++ [Http (token_request username password);
           LogInfo [Lit "Login successful."];
           GrSuccess [Lit "Login successful."]] in
  http_requests (snd (login username password srv tr))
  = http_requests tr
    ++ [token_request username password; chats_request auth_token]
  /\ (forall result tr',
        login username password srv tr = (Ret result, tr') ->
        exists chat_list,
          result = (update_visible false, update_visible true, auth_token,
                    chat_list, update_choices_value chat_list VNone))
  /\ (forall e,
        call_failure (srv tr1 (chats_request auth_token)) = Some e ->
        fst (login username password srv tr)
        = Ret (update_visible false, update_visible true, auth_token, [],
               update_choices_value [] VNone)).
Proof.
  intros Hu Hp Hr Hs Hb Ht Htok tr1.
  rewrite (login_answered srv tr username password Hu Hp r data Hr Hs Hb).
  rewrite Ht, Htok. fold tr1.
  destruct (refresh_and_update_components_run srv tr1 auth_token Htok)
    as (w & Hw & Hq & _).
  rewrite (refresh_and_update_components_eq srv tr1 auth_token Htok) in *.
  assert (Hreq : http_requests tr1
                 = http_requests tr ++ [token_request username password]).
  { unfold tr1. now rewrite http_requests_app. }
  refine (conj _ (conj _ _)).
  - destruct (get_chats auth_token srv tr1) as [[chats|e] tr''];
      simpl in Hw; subst tr''; simpl;
      rewrite !http_requests_app, Hq, Hreq; simpl;
      now rewrite ?app_nil_r, <- ?app_assoc.
  - intros result tr' H.
    destruct (get_chats auth_token srv tr1) as [[chats|e] tr''];
      inversion H; subst. now exists chats.
  - intros e F.
    now rewrite (get_chats_failed srv tr1 auth_token Htok e F).
Qed.

(** Any other failure of the token call (the transport raised, an error
    status other than 401, a body that is not JSON) is reported through
    the general error report; the login view stays and no token is set. *)
Theorem login_reports_failure (srv : server) (tr : trace)
  (username password : string) :
  username <> "" -> password <> "" ->
  let req := token_request username password in
  (forall e,
     call_failure (srv tr req) = Some e ->
     match e with
     | HTTPError r => status_code r <> 401%Z
     | _ => True
     end ->
     login username password srv tr
     = (Ret login_failed,
        tr ++ Http req :: warned (api_error_message e "authentication")))
  /\ (forall r text,
        srv tr req = Answers r -> is_error_status r = false ->
        resp_body r = BodyText text ->
        login username password srv tr
        = (Ret login_failed,
           tr ++ Http req
              :: warned (api_error_message JSONDecodeError
                           "authentication"))).
Proof.
  intros Hu Hp req. split.
  - intros e F Hne.
    rewrite (login_failed_call srv tr username password Hu Hp e F).
    destruct e; try reflexivity.
    apply Z.eqb_neq in Hne. now rewrite Hne.
  - intros r text Hr Hs Hb.
    apply (login_undecodable srv tr username password Hu Hp r text Hr Hs Hb).
Qed.

(** A good answer whose JSON body is not an object (an array, a string, a
    number, null) is not handled: [token_data.get] raises
    [AttributeError], which leaves [login] after its one request. *)
Theorem login_raises_on_non_object (srv : server) (tr : trace)
  (username password : string) (r : response) (data : value) :
  username <> "" -> password <> "" ->
  srv tr (token_request username password) = Answers r ->
  is_error_status r = false ->
  resp_body r = BodyJson data ->
  match data with VDict _ => False | _ => True end ->
  login username password srv tr
  = (Raise AttributeError, tr ++ [Http (token_request username password)]).
Proof.
  intros Hu Hp Hr Hs Hb Hshape.
  apply (login_not_an_object srv tr username password Hu Hp r data
           Hr Hs Hb Hshape).
Qed.

(** The login view and the token go together: whenever [login] returns, it
    either hands back no token, an empty chat list and the login view, or
    a true token together with the main view and selector choices equal
    to the chat list. *)
Theorem login_token_or_login_view (srv : server) (tr tr' : trace)
  (username password : string) (login_view main_view : gr_update)
  (auth_token : value) (chat_list : list chat) (choices : gr_update) :
  login username password srv tr
  = (Ret (login_view, main_view, auth_token, chat_list, choices), tr') ->
  (login_view, main_view, auth_token, chat_list, choices) = login_failed
  \/ (truthy auth_token = true
      /\ login_view = update_visible false
      /\ main_view = update_visible true
      /\ upd_choices choices = Some chat_list).
Proof.
  intros H.
  destruct (String.eqb username "") eqn:Hu.
  { unfold login in H. rewrite Hu in H. inversion H. now left. }
  destruct (String.eqb password "") eqn:Hp.
  { unfold login in H. rewrite Hu, Hp in H. inversion H. now left. }
  apply String.eqb_neq in Hu. apply String.eqb_neq in Hp.
  destruct (call_outcome (srv tr (token_request username password)))
    as [(r & Hr & Hs & F) | [(resp & Hr & F) | (r & Hr & Hs & F)]].
  - destruct (resp_body r) as [data|text] eqn:Hb.
    + destruct data as [| | | | |data];
        try (rewrite (login_not_an_object srv tr username password Hu Hp
                        r _ Hr Hs Hb I) in H; discriminate).
      rewrite (login_answered srv tr username password Hu Hp r data
                 Hr Hs Hb) in H.
      cbv zeta in H.
      destruct (truthy _) eqn:Htok in H.
      * rewrite (refresh_and_update_components_eq _ _ _ Htok) in H.
        destruct (get_chats _ srv _) as [[chats|e] tr''] in H;
          inversion H; subst. right. now repeat split.
      * inversion H. now left.
    + rewrite (login_undecodable srv tr username password Hu Hp r text
                 Hr Hs Hb) in H.
      inversion H. now left.
  - rewrite (login_failed_call srv tr username password Hu Hp _ F) in H.
    inversion H. now left.
  - rewrite (login_failed_call srv tr username password Hu Hp _ F) in H.
    inversion H. now left.
Qed.

(** ** The further properties at work on the sample servers *)

Lemma get_name_from_id_first_match_witness :
  get_name_from_id (VStr "c2")
    [(VStr "Trip", VStr "c1"); (VStr "Notes", VStr "c2");
     (VStr "Later", VStr "c2")]
  = VStr "Notes"
  /\ get_name_from_id (VStr "c2") [(VStr "Trip", VStr "c1")] = VNone.
Proof.
  apply (get_name_from_id_first_match (VStr "c2")
           [(VStr "Trip", VStr "c1")] [(VStr "Later", VStr "c2")]
           (VStr "Notes") (VStr "c2") [(VStr "Trip", VStr "c1")]).
  - intros c [<-|[]]. reflexivity.
  - reflexivity.
  - intros c [<-|[]]. reflexivity.
Defined.

Lemma refresh_keeps_selector_in_sync_witness :
  upd_choices
    (update_choices_value
       [(VStr "Trip", VStr "c1"); (VStr "Unnamed Chat", VStr "c2")] VNone)
  = Some [(VStr "Trip", VStr "c1"); (VStr "Unnamed Chat", VStr "c2")].
Proof.
  apply (refresh_keeps_selector_in_sync sample_server []
           [Http (chats_request (VStr "token"))] (VStr "token")).
  reflexivity.
Defined.

Lemma refresh_makes_one_request_witness :
  http_requests
    (snd (refresh_and_update_components (VStr "token") unreachable_server []))
  = [chats_request (VStr "token")]
  /\ fst (refresh_and_update_components (VStr "token") unreachable_server [])
     = Ret (update_choices_value [] VNone, []).
Proof.
  destruct (refresh_makes_one_request unreachable_server [] (VStr "token")
              eq_refl) as [Hreq Hfail].
  split.
  - exact Hreq.
  - apply (Hfail (RequestError None)). reflexivity.
Defined.

Lemma get_chats_degrades_to_empty_witness :
  fst (get_chats VNone sample_server []) = Ret []
  /\ fst (get_chats (VStr "token") unreachable_server []) = Ret []
  /\ fst (get_chats (VStr "token") unauthorized_server []) = Ret [].
Proof.
  refine (conj _ (conj _ _)).
  - destruct (get_chats_degrades_to_empty sample_server [] VNone)
      as [H _].
    now rewrite (H eq_refl).
  - destruct (get_chats_degrades_to_empty unreachable_server []
                (VStr "token")) as [_ H].
    destruct (H eq_refl) as [Hfail _].
    now rewrite (Hfail (RequestError None) eq_refl).
  - destruct (get_chats_degrades_to_empty unauthorized_server []
                (VStr "token")) as [_ H].
    destruct (H eq_refl) as [Hfail _].
    now rewrite (Hfail (HTTPError (mkResponse 401 (BodyText "Unauthorized")))
                   eq_refl).
Defined.

Lemma get_chats_without_points_witness :
  get_chats (VStr "token") empty_object_server []
  = (Ret [], [Http (chats_request (VStr "token"))]).
Proof.
  apply (get_chats_without_points empty_object_server [] (VStr "token")
           (mkResponse 200 (BodyJson (VDict []))) []);
    first [reflexivity | exact I].
Defined.

Lemma get_chat_messages_degrades_to_empty_witness :
  fst (get_chat_messages VNone (VStr "c1") sample_server [])
  = Ret ([], [Lit "Error loading messages"])
  /\ fst (get_chat_messages (VStr "token") (VStr "c1") unreachable_server [])
     = Ret ([], [Lit "Error loading messages"]).
Proof.
  split.
  - destruct (get_chat_messages_degrades_to_empty sample_server [] VNone
                (VStr "c1") eq_refl) as [H _].
    now rewrite (H eq_refl).
  - destruct (get_chat_messages_degrades_to_empty unreachable_server []
                (VStr "token") (VStr "c1") eq_refl) as [_ H].
    destruct (H eq_refl) as [Hfail _].
    now rewrite (Hfail (RequestError None) eq_refl).
Defined.

Lemma get_chat_messages_unreadable_points_witness :
  fst (get_chat_messages (VStr "token") (VStr "c1") null_points_server [])
  = Ret ([], [Lit "Could not parse message response"]).
Proof.
  rewrite (get_chat_messages_unreadable_points null_points_server []
             (VStr "token") (VStr "c1")
             (mkResponse 200
                (BodyJson (VDict [("Name", VStr "Trip");
                                  ("Messages", VDict [("points", VNone)])])))
             [("Name", VStr "Trip"); ("Messages", VDict [("points", VNone)])]
             [("points", VNone)] VNone
             eq_refl eq_refl eq_refl eq_refl eq_refl eq_refl eq_refl I).
  reflexivity.
Defined.

Lemma get_chat_messages_defaults_witness :
  get_chat_messages (VStr "token") (VStr "c1") empty_object_server []
  = (Ret ([], [Lit "History for: "; Str (VStr "Current Chat")]),
     [Http (messages_request (VStr "token") (VStr "c1"))]).
Proof.
  apply (get_chat_messages_defaults empty_object_server [] (VStr "token")
           (VStr "c1") (mkResponse 200 (BodyJson (VDict []))) []);
    first [reflexivity | exact I].
Defined.

Lemma create_chat_sends_any_name_witness :
  exists tr1,
    create_chat (VStr "token") "  " sample_server [] = (Ret tt, tr1)
    /\ http_requests tr1 = [create_request (VStr "token") "  "].
Proof.
  destruct (create_chat_sends_any_name sample_server [] (VStr "token") "  "
              eq_refl) as (tr1 & Hrun & Hreq & _).
  exists tr1. split; [exact Hrun | exact Hreq].
Defined.

Lemma handle_create_chat_requests_witness :
  http_requests
    (snd (handle_create_chat "Trip" (VStr "token") unreachable_server []))
  = [create_request (VStr "token") "Trip"; chats_request (VStr "token")].
Proof.
  apply (handle_create_chat_requests unreachable_server [] "Trip"
           (VStr "token")).
  reflexivity.
Defined.

Lemma on_chat_select_keeps_choice_witness :
  on_chat_select VNone (VStr "token") sample_server [] = (Ret ([], VNone), [])
  /\ fst (on_chat_select (VStr "c1") (VStr "token") unreachable_server [])
     = Ret ([], VStr "c1").
Proof.
  split.
  - apply (on_chat_select_keeps_choice sample_server [] VNone (VStr "token")).
    reflexivity.
  - destruct (on_chat_select_keeps_choice unreachable_server [] (VStr "c1")
                (VStr "token")) as [_ H].
    destruct (H eq_refl) as [_ Hfail].
    apply (Hfail eq_refl (RequestError None)). reflexivity.
Defined.

Lemma delete_without_selection_witness :
  handle_delete_chat VNone [(VStr "Trip", VStr "c1")] (VStr "token")
    sample_server []
  = (Ret (no_change, Update no_change, Update no_change, Update no_change),
     warned [Lit "No chat selected to delete."]).
Proof.
  apply (delete_without_selection sample_server [] VNone
           [(VStr "Trip", VStr "c1")] (VStr "token")).
  reflexivity.
Defined.

Lemma delete_reports_success_after_failure_witness :
  In (GrSuccess [Lit "Chat '"; Str (VStr "Trip"); Lit "' deleted."])
    (snd (handle_delete_chat (VStr "c1") [(VStr "Trip", VStr "c1")]
            (VStr "token") unreachable_server [])).
Proof.
  destruct (delete_reports_success_after_failure unreachable_server []
              (VStr "c1") [(VStr "Trip", VStr "c1")] (VStr "token")
              (RequestError None) eq_refl eq_refl eq_refl)
    as (w & Ht & _).
  rewrite Ht. simpl. tauto.
Defined.

Lemma send_makes_two_requests_witness :
  http_requests
    (snd (handle_send_and_refresh (VStr "c1") "hey" (VStr "token")
            refusing_server []))
  = [message_request (VStr "token") (VStr "c1") "hey";
     messages_request (VStr "token") (VStr "c1")].
Proof.
  apply (send_makes_two_requests refusing_server [] (VStr "token")
           (VStr "c1") "hey"); reflexivity.
Defined.

Lemma send_without_token_witness :
  fst (handle_send_and_refresh (VStr "c1") "hey" VNone sample_server [])
  = Ret ([], "hey").
Proof.
  rewrite (send_without_token sample_server [] VNone (VStr "c1") "hey"
             eq_refl eq_refl eq_refl).
  reflexivity.
Defined.

Lemma handle_rename_chat_requests_witness :
  http_requests
    (snd (handle_rename_chat (VStr "c1") "  " (VStr "token")
            sample_server []))
  = [chats_request (VStr "token")]
  /\ http_requests
       (snd (handle_rename_chat (VStr "c1") "Journey" (VStr "token")
               sample_server []))
     = [rename_request (VStr "token") (VStr "c1") "Journey";
        chats_request (VStr "token")].
Proof.
  split.
  - apply (handle_rename_chat_requests sample_server [] (VStr "c1") "  "
             (VStr "token")); reflexivity.
  - apply (handle_rename_chat_requests sample_server [] (VStr "c1")
             "Journey" (VStr "token")); reflexivity.
Defined.

Lemma handle_delete_chat_requests_witness :
  http_requests
    (snd (handle_delete_chat (VStr "c1") [(VStr "Trip", VStr "c1")]
            (VStr "token") unreachable_server []))
  = [delete_request (VStr "token") (VStr "c1");
     chats_request (VStr "token")].
Proof.
  apply (handle_delete_chat_requests unreachable_server [] (VStr "c1")
           [(VStr "Trip", VStr "c1")] (VStr "token")); reflexivity.
Defined.

Lemma login_unauthorized_witness :
  login "alice" "wrong" unauthorized_server []
  = (Ret login_failed,
     [Http (token_request "alice" "wrong");
      GrWarning [Lit "Invalid username or password."]]).
Proof.
  apply (login_unauthorized unauthorized_server [] "alice" "wrong"
           (mkResponse 401 (BodyText "Unauthorized")));
    first [discriminate | reflexivity].
Defined.

Lemma login_without_token_in_answer_witness :
  login "alice" "secret" sample_server []
  = (Ret login_failed,
     [Http (token_request "alice" "secret");
      GrWarning [Lit "Login failed: No token received."]]).
Proof.
  apply (login_without_token_in_answer sample_server [] "alice" "secret"
           (mkResponse 200 (BodyJson (VDict []))) []);
    first [discriminate | reflexivity | exact I].
Defined.

Lemma login_success_witness :
  http_requests (snd (login "alice" "secret" login_server []))
  = [token_request "alice" "secret"; chats_request (VStr "token")].
Proof.
  apply (login_success login_server [] "alice" "secret"
           (mkResponse 200
              (BodyJson (VDict [("access_token", VStr "token")])))
           [("access_token", VStr "token")] (VStr "token"));
    first [discriminate | reflexivity].
Defined.

Lemma login_token_or_login_view_witness :
  (update_visible false, update_visible true, VStr "token",
   [(VStr "Trip", VStr "c1"); (VStr "Unnamed Chat", VStr "c2")],
   update_choices_value
     [(VStr "Trip", VStr "c1"); (VStr "Unnamed Chat", VStr "c2")] VNone)
  = login_failed
  \/ (truthy (VStr "token") = true
      /\ update_visible false = update_visible false
      /\ update_visible true = update_visible true
      /\ upd_choices
           (update_choices_value
              [(VStr "Trip", VStr "c1"); (VStr "Unnamed Chat", VStr "c2")]
              VNone)
         = Some [(VStr "Trip", VStr "c1"); (VStr "Unnamed Chat", VStr "c2")]).
Proof.
  apply (login_token_or_login_view login_server []
           [Http (token_request "alice" "secret");
            LogInfo [Lit "Login successful."];
            GrSuccess [Lit "Login successful."];
            Http (chats_request (VStr "token"))]
           "alice" "secret").
  reflexivity.
Defined.

Lemma login_reports_failure_witness :
  login "alice" "secret" unreachable_server []
  = (Ret login_failed,
     Http (token_request "alice" "secret")
     :: warned (api_error_message (RequestError None) "authentication")).
Proof.
  destruct (login_reports_failure unreachable_server [] "alice" "secret")
    as [H _]; try discriminate.
  apply (H (RequestError None)); [reflexivity | exact I].
Defined.

Lemma login_raises_on_non_object_witness :
  login "alice" "secret" misshapen_server []
  = (Raise AttributeError, [Http (token_request "alice" "secret")]).
Proof.
  apply (login_raises_on_non_object misshapen_server [] "alice" "secret"
           (mkResponse 200 (BodyJson (VList []))) (VList []));
    first [discriminate | reflexivity | exact I].
Defined.
